(** * MarketLayer: purchase orchestration of market-csgo-manager

    A shallow embedding of [src/market/MarketLayer.js] (and of the
    [EMarketMessage] enumeration that the same source file carries), with the
    properties of the purchase loop, the offer catalogue and the history
    reconciliation that the specification states.

    Conventions of the embedding.
    - Prices, balances, identifiers and timestamps are [Z]: the data model
      keeps prices in integer minor units, so [NaN] and fractions are outside
      the type.  Where the source converts with [Number(...)] a value that
      may be missing, the missing case is kept as [None].
    - A promise is modelled by its settlement: [Return v] for a fulfilled
      promise (or a normal return), [Throw e] for a rejected promise (or a
      synchronous [throw]).
    - Logging ([this._log]) has no effect on control flow and is left out;
      so is the human-readable message of a [MiddlewareError]. *)

From Stdlib Require Import ZArith List String Bool Lia Sorted Permutation
  QArith Qround.
Import ListNotations.

Local Open Scope Z_scope.
Local Open Scope string_scope.

(* ================================================================== *)
(** ** Completions *)

Inductive Completion (E A : Type) : Type :=
| Return (a : A)
| Throw (e : E).
Arguments Return {E A} a.
Arguments Throw {E A} e.

Definition bind {E A B} (c : Completion E A) (k : A -> Completion E B)
  : Completion E B :=
  match c with
  | Return a => k a
  | Throw e => Throw e
  end.

Notation "x <- c ;; k" := (bind c (fun x => k))
  (at level 61, c at next level, right associativity).

(* ================================================================== *)
(** ** Enumerations

    [EErrorType] and [EErrorSource] live in files of their own; the members
    below are the ones [MarketLayer.js] refers to. *)

Module EErrorType.
Inductive t : Set :=
| AttemptsFailed | NeedMoney | BadOfferPrice | NeedToTake | InvalidToken
| InventoryClosed | UnableOfflineTrade | VacGameBan | BotCanceledTrades
| CanceledTrades | RequestFailed | NotFound | TooHighPrices | HistoryFailed
| UnknownStage.

Definition eqb (a b : t) : bool :=
  match a, b with
  | AttemptsFailed, AttemptsFailed | NeedMoney, NeedMoney
  | BadOfferPrice, BadOfferPrice | NeedToTake, NeedToTake
  | InvalidToken, InvalidToken | InventoryClosed, InventoryClosed
  | UnableOfflineTrade, UnableOfflineTrade | VacGameBan, VacGameBan
  | BotCanceledTrades, BotCanceledTrades | CanceledTrades, CanceledTrades
  | RequestFailed, RequestFailed | NotFound, NotFound
  | TooHighPrices, TooHighPrices | HistoryFailed, HistoryFailed
  | UnknownStage, UnknownStage => true
  | _, _ => false
  end.
End EErrorType.

Module EErrorSource.
Inductive t : Set := Market | Owner | User.
End EErrorSource.

(* ================================================================== *)
(** ** JavaScript values met in the message table *)

Inductive JsVal : Set :=
| JsUndefined
| JsNull
| JsString (s : string)
| JsFunction.

(** Strict equality [===] on these values (the table holds one function
    object, [hash], which is identical to itself only). *)
Definition strict_eq (a b : JsVal) : bool :=
  match a, b with
  | JsUndefined, JsUndefined => true
  | JsNull, JsNull => true
  | JsString s, JsString t => String.eqb s t
  | JsFunction, JsFunction => true
  | _, _ => false
  end.

(** A provider field that should hold a string: [None] stands for a missing
    field or for any value that is not a string. *)
Definition of_field (f : option string) : JsVal :=
  match f with
  | Some s => JsString s
  | None => JsUndefined
  end.

(* ================================================================== *)
(** ** EMarketMessage *)

Definition dquote : string := String (Ascii.ascii_of_nat 34) EmptyString.
Definition newline : string := String (Ascii.ascii_of_nat 10) EmptyString.

Module EMarketMessage.

(** The frozen object, as the list of its own enumerable properties in
    insertion order.  Strings are kept as their UTF-8 bytes; equality of
    well-formed strings is the same in either encoding. *)
Definition table : list (string * JsVal) :=
  [ ("Ok", JsString "ok");
    ("TooEarlyToPong", JsString "too early for pong");
    ("CheckTokenOrMobile", JsString "token_check_or_mobile_authenticator");
    ("RequestErrorNoItems",
      JsString "Ошибка создания заявки: У вас нет вещей для передачи");
    ("RequestErrorWrongBotId",
      JsString "Ошибка создания заявки: Неправильный номер бота");
    ("RequestErrorItemListFail",
      JsString "Ошибка создания заявки: Не удалось получить список предметов");
    ("RequestUnexpectedError", JsString "Ошибка создания заявки: Exception");
    ("NeedMoney", JsString "Недостаточно средств на счету");
    ("NeedToTake",
      JsString ("Вы не можете покупать, пока у вас есть доступные для вывода предметы."
                ++ newline ++ "Выведите все предметы на странице "
                ++ dquote ++ "Мои вещи" ++ dquote));
    ("BadOfferPrice",
      JsString "Покупка данного предмета по такой цене невозможна. Обратитесь в техподдержку");
    ("RequestErrorNoList",
      JsString "Ошибка создания заявки: Не удалось получить список предметов");
    ("BuyOfferExpired",
      JsString "К сожалению, предложение устарело. Обновите страницу");
    ("SomebodyBuying",
      JsString "Кто-то уже покупает этот предмет. Попробуйте ещё");
    ("ServerError7", JsString "Ошибка сервера 7");
    ("SteamOrBotProblems",
      JsString "Возможны проблемы со стим или ботом, попробуйте позже.");
    ("BotIsBanned", JsString "Бот забанен, скоро исправим.");
    ("VacGameBan", JsString "Error: reason VACBan or Game ban.");
    ("InvalidTradeLink", JsString "Invalid trade link");
    ("SteamInventoryPrivate",
      JsString "First you must open your inventory in your Steam profile settings.");
    ("OfflineTradeProblem",
      JsString "Error verifying link. Our bot cannot take or transfer your items. Please check the function of offline trades on your account.");
    ("BadTokenInvClosed", JsString "bad_token_inv_closed");
    ("CanceledTrades",
      JsString "Передача предмета на этого пользователя не возможна, из-за не принятия большого кол-ва обменов.");
    ("BuyCanceledTrades",
      JsString "Вы не можете покупать, так как не приняли слишком много предложений обмена");
    ("ItemReadyToTake",
      JsString ("Купленный предмет готов к получению, заберите его на странице "
                ++ dquote ++ "Мои вещи" ++ dquote));
    ("SupportAnswer", JsString "Получен новый ответ от техподдержки");
    ("hash", JsFunction) ].

(** [EMarketMessage[key]]: a property that does not exist reads as
    [undefined]. *)
Fixpoint lookup (tbl : list (string * JsVal)) (key : string) : JsVal :=
  match tbl with
  | [] => JsUndefined
  | (name, v) :: tbl' => if String.eqb name key then v else lookup tbl' key
  end.

Definition get (key : string) : JsVal := lookup table key.

(** [EMarketMessage[k]] for a computed key [k]: the key is converted to a
    string first, so [null] reads the property named "null". *)
Definition get_computed (k : JsVal) : JsVal :=
  match k with
  | JsString name => get name
  | JsNull => get "null"
  | JsUndefined => get "undefined"
  | JsFunction => JsUndefined
  end.

(** [hash(message)]: the name of the first property whose value is
    identical to [message], [null] when there is none. *)
Fixpoint hash_in (tbl : list (string * JsVal)) (message : JsVal) : JsVal :=
  match tbl with
  | [] => JsNull
  | (name, v) :: tbl' =>
      if strict_eq v message then JsString name else hash_in tbl' message
  end.

Definition hash (message : JsVal) : JsVal := hash_in table message.

(** The raw messages the table knows. *)
Definition known (m : string) : bool :=
  existsb (fun kv => strict_eq (snd kv) (JsString m)) table.

End EMarketMessage.

Local Close Scope string_scope.
Local Open Scope list_scope.

(* ================================================================== *)
(** ** Data model *)

Module Offer.
(** An element of the offer queue, as [extractOffers] builds it.
    [offers = None] is the [NaN] that [Number(undefined)] gives;
    [min_price = None] is a property that was never assigned. *)
Record t : Set := mk {
  hashName : string;
  instanceId : string;
  classId : string;
  price : Z;
  offers : option Z;
  min_price : option Z
}.

Definition set_min_price (v : Z) (o : t) : t :=
  mk (hashName o) (instanceId o) (classId o) (price o) (offers o) (Some v).

Definition set_price (v : Z) (o : t) : t :=
  mk (hashName o) (instanceId o) (classId o) v (offers o) (min_price o).
End Offer.

Record TradeData : Set := {
  partnerId : string;
  tradeToken : string
}.

Module Purchase.
(** The object a successful [_tryToBuy] returns. *)
Record t : Set := mk {
  uiId : Z;
  classId : string;
  instanceId : string;
  price : Z;
  offerPrice : option Z
}.
End Purchase.

(** The [errData] argument of [MiddlewareError]. [lowestPrice = None] is the
    [Infinity] that [Math.min] gives on no arguments. *)
Inductive ErrData : Set :=
| NoData
| NeedMoneyData (needMoney : Z)
| LowestPriceData (lowestPrice : option Z).

(** What the code can throw: an error built by [MiddlewareError(message,
    type, source, errData)] ([source = None] when the call passes none), or
    the [TypeError] the runtime raises on reading a property of
    [undefined]; and an error object that is passed on as it came from the
    provider's client, with the properties that the handlers read
    ([type = Some ty] when that property is the member [ty] of
    [EErrorType]) and the message that tells one such object from
    another. *)
Inductive JsError : Set :=
| MiddlewareError (type : EErrorType.t) (source : option EErrorSource.t)
                  (errData : ErrData)
| TypeError
| ForeignError (type : option EErrorType.t) (statusCode : option Z)
               (message : string).

(** A thrown error object with the properties that handlers add to it on
    its way out. *)
Record Exn : Set := mkExn {
  thrown : JsError;
  instance : option Offer.t;
  marketId : option Z
}.

Definition raise (e : JsError) : Exn := mkExn e None None.

Definition set_instance (i : Offer.t) (e : Exn) : Exn :=
  mkExn (thrown e) (Some i) (marketId e).

Definition set_marketId (m : Z) (e : Exn) : Exn :=
  mkExn (thrown e) (instance e) (Some m).

(** [err instanceof MiddlewareError && err.type === type]. *)
Definition is_middleware_of (ty : EErrorType.t) (e : Exn) : bool :=
  match thrown e with
  | MiddlewareError ty' _ _ => EErrorType.eqb ty' ty
  | TypeError => false
  | ForeignError _ _ _ => false
  end.

(** [e.type === type], with no [instanceof] test. *)
Definition has_type (ty : EErrorType.t) (e : Exn) : bool :=
  match thrown e with
  | MiddlewareError ty' _ _ => EErrorType.eqb ty' ty
  | TypeError => false
  | ForeignError (Some ty') _ _ => EErrorType.eqb ty' ty
  | ForeignError None _ _ => false
  end.

(** What a promise can reject with and a [catch] can receive: an error
    object, or a value that is no object, which is [undefined] or [null],
    or another primitive (a string, a number, a boolean). *)
Inductive Caught : Set :=
| Object (e : Exn)
| Nullish
| Scalar.

(** [e.type === type] in a handler: reading a property of [undefined] or
    [null] raises a [TypeError], and another primitive has no [type]. *)
Definition type_is (ty : EErrorType.t) (e : Caught) : Completion Exn bool :=
  match e with
  | Object e => Return (has_type ty e)
  | Nullish => Throw (raise TypeError)
  | Scalar => Return false
  end.

(** [e.marketId = marketId; throw e] in a handler: the assignment raises a
    [TypeError] on [undefined] and [null], and in strict mode on any other
    primitive too. *)
Definition throw_with_marketId (m : Z) (e : Caught) : Exn :=
  match e with
  | Object e => set_marketId m e
  | Nullish => raise TypeError
  | Scalar => raise TypeError
  end.

(** *** The remote collaborator *)

Module Buy.
(** The value [buyV2CreateFor] resolves with. *)
Record Response : Set := { success : bool; id : Z }.

(** [error.response.body.error], the object whose [error] field holds the
    raw provider message. *)
Record ProviderError : Set := { error : option string; result : option string }.
Record Body : Set := { body_error : option ProviderError }.
Record HttpResponse : Set := { body : option Body }.

(** The reason [buyV2CreateFor] rejects with. *)
Record Rejection : Set := { response : option HttpResponse }.

Inductive Outcome : Set :=
| Resolved (r : Response)
| Rejected (e : Rejection).

(** [new Error(...)], seen through the properties the handler reads: it
    has no [response]. *)
Definition plain_Error : Rejection := {| response := None |}.

(** A rejection that carries the provider's structured error body. *)
Definition structured (message result : option string) : Rejection :=
  {| response := Some {| body := Some {| body_error :=
       Some {| error := message; result := result |} |} |} |}.
End Buy.

Module Search.
(** A raw catalogue entry.  [MarketApi.getItemHash] and
    [MarketApi.getItemIds] are not part of this file: their results on an
    entry are kept as the fields [hash], [instanceId] and [classId]. *)
Record RawItem : Set := {
  hash : string;
  instanceId : string;
  classId : string;
  price : Z;
  offers : option Z;
  count : option Z
}.

Record Response : Set := { success : bool; data : option (list RawItem) }.
End Search.

Module History.
Record Event : Set := { event : string; item_id : Z; stage : Z }.

(** The value [accountV2GetHistory] resolves with; [data = None] is an
    answer without [data]. *)
Record Response : Set := { success : bool; data : option (list Event) }.

Inductive Outcome : Set :=
| Resolved (history : Response)
| Rejected (e : Caught).
End History.

(** [this.api].  A call that is made more than once in one operation takes
    the number of calls made before it, so that the provider may answer
    each call differently.  The purchase and the history requests resolve
    or reject; the catalogue lookup is given by the value it resolves with
    (a lookup that rejects makes [getItemOffers] reject with the same
    reason before it does anything else). *)
Record MarketApi : Type := {
  buyV2CreateFor : nat -> Offer.t -> Z -> option TradeData -> Buy.Outcome;
  searchV2ItemByHash : string -> Search.Response;
  accountV2GetHistory : nat -> Z -> Z -> History.Outcome
}.

Record CMarketConfig : Type := {
  hackExpiredOffers : bool;
  applyDiscounts : bool;
  handleTimezone : bool;
  preparePrice : Z -> Z
}.

(** The [MarketLayer] object.  [_wallet] and [_buyDiscount] start as
    [null]. *)
Record MarketLayer : Type := {
  _config : CMarketConfig;
  api : MarketApi;
  _wallet : option Z;
  _buyDiscount : option Q
}.

(** *** Numbers *)

(** [Number.MAX_VALUE], which is an integer. *)
Definition Number_MAX_VALUE : Z := (2 ^ 53 - 1) * 2 ^ 971.

(** Truthiness of a number that may be missing. *)
Definition truthy (v : option Z) : bool :=
  match v with
  | Some n => negb (n =? 0)%Z
  | None => false
  end.

(** [a || b] on such numbers. *)
Definition js_or {A} (inj : Z -> A) (a : option Z) (b : A) : A :=
  match a with
  | Some n => if (n =? 0)%Z then b else inj n
  | None => b
  end.

(** [Math.round] on an exact rational: nearest integer, halves go up. *)
Definition Math_round (x : Q) : Z := Qfloor (x + (1 # 2))%Q.

(** [Math.min.apply(null, xs)]. *)
Definition Math_min (xs : list Z) : option Z :=
  match xs with
  | [] => None
  | x :: xs' => Some (fold_left Z.min xs' x)
  end.

(** [Array.prototype.sort] with a comparator: a stable sort, whose result
    does not depend on the engine's algorithm. *)
Fixpoint sort_insert {A} (compare : A -> A -> Z) (x : A) (l : list A) : list A :=
  match l with
  | [] => [x]
  | y :: l' =>
      if (compare x y <=? 0)%Z then x :: y :: l'
      else y :: sort_insert compare x l'
  end.

Definition Array_sort {A} (compare : A -> A -> Z) (l : list A) : list A :=
  fold_right (sort_insert compare) [] l.

(** The state that one [buyCheapest] invocation shares between its attempts:
    the [offers] array, the [badItemPrice] flag of the closure, and (for the
    statements below) the purchase calls issued so far. *)
Record Run : Set := mkRun {
  offers : list Offer.t;
  badItemPrice : bool;
  calls : list (Offer.t * Z)
}.

(* ================================================================== *)
(** ** The operations of [MarketLayer] *)

Section Layer.

(** [MiddlewareError] is a class of its own file: whether the objects it
    builds carry a [statusCode] is left open. *)
Variable MiddlewareError_statusCode : EErrorType.t -> option Z.

(** [Date.prototype.getTimezoneOffset], in minutes, and the clock that
    [new Date()] reads at the n-th history request. *)
Variable getTimezoneOffset : Z -> Z.
Variable Date_now : nat -> Z.

(** Members of enumerations that live in other files. *)
Variable EMarketEventType_BuyV2 : string.
Variable EMarketEventStage_has : Z -> bool.

Variable this : MarketLayer.

Definition statusCode (e : Exn) : option Z :=
  match thrown e with
  | MiddlewareError ty _ _ => MiddlewareError_statusCode ty
  | TypeError => None
  | ForeignError _ code _ => code
  end.

Definition _getAccountBalance : Z :=
  match _wallet this with
  | None => Number_MAX_VALUE
  | Some w => w
  end.

Definition _applyDiscount (price : Z) : Z :=
  if negb (applyDiscounts (_config this)) then price
  else
    let discount := match _buyDiscount this with
                    | None => 0%Q
                    | Some d => d
                    end in
    Math_round (inject_Z price * (1 - discount))%Q.

(** *** [_tryToBuy] *)

(** Reading a property of a value that may be [undefined]. *)
Definition prop_of {A B} (o : option A) (get : A -> B) : Completion Exn B :=
  match o with
  | Some a => Return (get a)
  | None => Throw (raise TypeError)
  end.

(** [case EMarketMessage.name:] of the [switch (message)]. *)
Definition case_ (message : JsVal) (name : string) : bool :=
  strict_eq message (EMarketMessage.get name).

(** The rejection handler of [_tryToBuy]; [null] is [None]. *)
Definition classify (uprice : Z) (error : Buy.Rejection)
  : Completion Exn (option Purchase.t) :=
  body <- prop_of (Buy.response error) Buy.body ;;
  response <- prop_of body Buy.body_error ;;
  raw <- prop_of response Buy.error ;;
  let message :=
    EMarketMessage.get_computed (EMarketMessage.hash (of_field raw)) in
  if case_ message "BadOfferPrice"%string then
    Throw (raise (MiddlewareError EErrorType.BadOfferPrice
                    (Some EErrorSource.Market) NoData))
  else if existsb (case_ message)
            [ "BuyOfferExpired"; "SomebodyBuying"; "RequestErrorNoList";
              "FailedToFindItem"; "SteamOrBotProblems"; "BotIsBanned";
              "ServerError7" ]%string then
    Return None
  else if case_ message "NeedToTake"%string then
    Throw (raise (MiddlewareError EErrorType.NeedToTake
                    (Some EErrorSource.Owner) NoData))
  else if case_ message "NeedMoney"%string then
    Throw (raise (MiddlewareError EErrorType.NeedMoney
                    (Some EErrorSource.Owner) (NeedMoneyData uprice)))
  else if case_ message "InvalidTradeLink"%string then
    Throw (raise (MiddlewareError EErrorType.InvalidToken
                    (Some EErrorSource.User) NoData))
  else if case_ message "SteamInventoryPrivate"%string then
    Throw (raise (MiddlewareError EErrorType.InventoryClosed
                    (Some EErrorSource.User) NoData))
  else if case_ message "OfflineTradeProblem"%string then
    Throw (raise (MiddlewareError EErrorType.UnableOfflineTrade
                    (Some EErrorSource.User) NoData))
  else if case_ message "VacGameBan"%string then
    Throw (raise (MiddlewareError EErrorType.VacGameBan
                    (Some EErrorSource.User) NoData))
  else if case_ message "BuyCanceledTrades"%string then
    Throw (raise (MiddlewareError EErrorType.BotCanceledTrades
                    (Some EErrorSource.User) NoData))
  else if case_ message "CanceledTrades"%string then
    Throw (raise (MiddlewareError EErrorType.CanceledTrades
                    (Some EErrorSource.User) NoData))
  else
    Return None.

(** The fulfilment handler: a response that is not a success throws a
    plain [Error], which the rejection handler chained after it
    receives. *)
Definition bought (instance : Offer.t) (uprice : Z) (response : Buy.Response)
  : Buy.Rejection + Purchase.t :=
  if negb (Buy.success response) then inl Buy.plain_Error
  else inr (Purchase.mk
              (Buy.id response)
              (Offer.classId instance)
              (Offer.instanceId instance)
              (_applyDiscount (js_or id (Offer.min_price instance) uprice))
              (Offer.min_price instance)).

(** [_tryToBuy(instance, tradeData)], as the n-th purchase call. *)
Definition _tryToBuy (n : nat) (instance : Offer.t) (tradeData : option TradeData)
  : Completion Exn (option Purchase.t) :=
  let uprice := Offer.price instance in
  match buyV2CreateFor (api this) n instance uprice tradeData with
  | Buy.Resolved response =>
      match bought instance uprice response with
      | inr data => Return (Some data)
      | inl error => classify uprice error
      end
  | Buy.Rejected error => classify uprice error
  end.

(** *** [buyCheapest] *)

(** The fix for expired offers, applied to the offer just shifted off the
    queue; [rest] is the queue after the shift, and [offers.length > 0] is
    its first case. *)
Definition hackExpired (instance : Offer.t) (rest : list Offer.t) : Offer.t :=
  match rest with
  | nextInstance :: _ =>
      if hackExpiredOffers (_config this) then
        let instance' := Offer.set_min_price (Offer.price instance) instance in
        Offer.set_price
          (Z.max (Offer.price instance') (Offer.price nextInstance - 1))
          instance'
      else instance
  | [] => instance
  end.

Definition set_badItemPrice (st : Run) : Run :=
  mkRun (offers st) true (calls st).

(** [if (err.statusCode) { err.instance = instance; }]. *)
Definition attach (instance : Offer.t) (err : Exn) : Exn :=
  if truthy (statusCode err) then set_instance instance err else err.

(** The [.catch] handler of one attempt.  [retry] is the call
    [buyAttempt()] and [st] the shared state when the handler runs. *)
Definition onRejected (instance : Offer.t)
    (retry : Run -> option (Completion Exn Purchase.t * Run))
    (err : Exn) (st : Run)
  : option (Completion Exn Purchase.t * Run) :=
  if is_middleware_of EErrorType.BadOfferPrice err && negb (badItemPrice st)
  then retry (set_badItemPrice st)
  else Some (Throw (attach instance err), st).

(** The closure [buyAttempt].  Every call shifts one offer before it can
    call itself, so the nesting depth is bounded by the queue; [fuel]
    bounds it here and [None] is the exhausted bound. *)
Fixpoint buyAttempt (tradeData : option TradeData) (fuel : nat) (st : Run)
  : option (Completion Exn Purchase.t * Run) :=
  match fuel with
  | O => None
  | S fuel' =>
      match offers st with
      | [] =>
          Some (Throw (raise (MiddlewareError EErrorType.AttemptsFailed
                                (Some EErrorSource.Market) NoData)), st)
      | shifted :: rest =>
          let balance := _getAccountBalance in
          let instance := hackExpired shifted rest in
          let st1 := mkRun rest (badItemPrice st) (calls st) in
          if (Offer.price instance >? balance)%Z then
            Some (Throw (raise (MiddlewareError EErrorType.NeedMoney
                                  (Some EErrorSource.Owner)
                                  (NeedMoneyData (Offer.price instance)))),
                  st1)
          else
            let st2 := mkRun rest (badItemPrice st)
                         (calls st ++ [(instance, Offer.price instance)]) in
            match _tryToBuy (List.length (calls st)) instance tradeData with
            | Return (Some data) => Some (Return data, st2)
            | Return None =>
                match buyAttempt tradeData fuel' st2 with
                | Some (Throw err, st3) =>
                    onRejected instance (buyAttempt tradeData fuel') err st3
                | settled => settled
                end
            | Throw err =>
                onRejected instance (buyAttempt tradeData fuel') err st2
            end
      end
  end.

Definition buyCheapest (queue : list Offer.t) (tradeData : option TradeData)
  : option (Completion Exn Purchase.t * Run) :=
  buyAttempt tradeData (S (List.length queue)) (mkRun queue false []).

(** [tradeData(partnerId, tradeToken)]: both strings must be non-empty. *)
Definition tradeData (partner token : option string) : option TradeData :=
  match partner, token with
  | Some p, Some t =>
      if (String.eqb p ""%string || String.eqb t ""%string)%bool then None
      else Some {| partnerId := p; tradeToken := t |}
  | _, _ => None
  end.

(** *** [getItemOffers] *)

Definition extractOffers (items : list Search.RawItem) : list Offer.t :=
  map (fun item =>
         Offer.mk (Search.hash item)
                  (Search.instanceId item)
                  (Search.classId item)
                  (Search.price item)
                  (js_or Some (Search.offers item) (Search.count item))
                  None)
      items.

Definition positive (n : option Z) : bool :=
  match n with
  | Some v => (0 <? v)%Z
  | None => false
  end.

Definition prepareOffers (mhn : string) (allowedPrice : Z) (items : list Offer.t)
  : list Offer.t :=
  Array_sort (fun a b => Offer.price a - Offer.price b)%Z
    (filter (fun item => String.eqb (Offer.hashName item) mhn)
       (filter (fun item => (Offer.price item <=? allowedPrice)%Z
                            && positive (Offer.offers item))
          items)).

Definition getItemOffers (mhn : string) (maxPrice : option Z)
  : Completion Exn (list Offer.t) :=
  let allowedPrice := js_or (preparePrice (_config this)) maxPrice
                            Number_MAX_VALUE in
  let itemVariants := searchV2ItemByHash (api this) mhn in
  if negb (Search.success itemVariants) then
    Throw (raise (MiddlewareError EErrorType.RequestFailed
                    (Some EErrorSource.Market) NoData))
  else
    match Search.data itemVariants with
    | None | Some [] =>
        Throw (raise (MiddlewareError EErrorType.NotFound
                        (Some EErrorSource.Market) NoData))
    | Some data =>
        let rawVariants := extractOffers data in
        let preparedVariants := prepareOffers mhn allowedPrice rawVariants in
        match preparedVariants with
        | [] =>
            let lowestPrice := Math_min (map Offer.price rawVariants) in
            Throw (raise (MiddlewareError EErrorType.TooHighPrices
                            (Some EErrorSource.Owner)
                            (LowestPriceData lowestPrice)))
        | _ => Return preparedVariants
        end
    end.

Definition buyItem (hashName : string) (goodPrice : option Z)
    (partner token : option string)
  : option (Completion Exn Purchase.t * Run) :=
  match getItemOffers hashName goodPrice with
  | Return list => buyCheapest list (tradeData partner token)
  | Throw e => Some (Throw e, mkRun [] false [])
  end.

(** *** [getBoughtItems] and [getItemState] *)

(** [log] holds the history requests made so far, as [(start, end)] in
    milliseconds; the request made here is appended to it.  A request that
    rejects makes [getBoughtItems] reject with the same reason, and a
    success without [data] raises the [TypeError] of [history.data.filter]. *)
Definition getBoughtItems (operationDate : option Z) (timeMargin : Z)
    (log : list (Z * Z))
  : Completion Caught (list History.Event) * list (Z * Z) :=
  let aligned :=
    if handleTimezone (_config this) then
      currentTimezone <- prop_of operationDate getTimezoneOffset ;;
      let offset := (- (0 - currentTimezone))%Z in
      date <- prop_of operationDate (fun d => d) ;;
      Return (Some (date + offset * 60 * 1000)%Z)
    else Return operationDate in
  match aligned with
  | Throw e => (Throw (Object e), log)
  | Return operationDate =>
      let range :=
        match operationDate with
        | Some date => (date - timeMargin, date + timeMargin)%Z
        | None => (0%Z, Date_now (List.length log))
        end in
      let log' := log ++ [range] in
      match accountV2GetHistory (api this) (List.length log)
              (fst range) (snd range) with
      | History.Rejected e => (Throw e, log')
      | History.Resolved history =>
          if History.success history then
            match History.data history with
            | None => (Throw (Object (raise TypeError)), log')
            | Some data =>
                let buyEvents :=
                  filter (fun ev => String.eqb (History.event ev)
                                      EMarketEventType_BuyV2) data in
                if (List.length buyEvents =? 0)%nat then
                  (Throw (Object (raise (MiddlewareError EErrorType.NotFound
                                           None NoData))), log')
                else (Return buyEvents, log')
            end
          else
            (Throw (Object (raise (MiddlewareError EErrorType.HistoryFailed
                                     None NoData))), log')
      end
  end.

Definition initialMargin : Z := 45 * 1000.
Definition extendedMargin : Z := 5 * 60 * 1000.

Definition extractItem (marketId : Z) (history : list History.Event)
  : option History.Event :=
  find (fun ev => (History.item_id ev =? marketId)%Z) history.

Definition getItem (marketId : Z) (operationDate : option Z) (margin : Z)
    (log : list (Z * Z))
  : Completion Caught History.Event * list (Z * Z) :=
  match getBoughtItems operationDate margin log with
  | (Throw e, log') => (Throw e, log')
  | (Return history, log') =>
      match extractItem marketId history with
      | None =>
          (Throw (Object (raise (MiddlewareError EErrorType.NotFound
                                   None NoData))), log')
      | Some buyEvent => (Return buyEvent, log')
      end
  end.

Definition makeRequests (marketId : Z) (operationDate : option Z)
  : Completion Caught History.Event * list (Z * Z) :=
  match getItem marketId operationDate initialMargin [] with
  | (Throw e, log) =>
      match type_is EErrorType.NotFound e with
      | Throw raised => (Throw (Object raised), log)
      | Return true => getItem marketId operationDate extendedMargin log
      | Return false => (Throw e, log)
      end
  | settled => settled
  end.

(** [getItemState(marketId, operationDate)], with the history requests it
    made. *)
Definition getItemState (marketId : Z) (operationDate : option Z)
  : Completion Exn Z * list (Z * Z) :=
  match makeRequests marketId operationDate with
  | (Throw e, log) => (Throw (throw_with_marketId marketId e), log)
  | (Return buyEvent, log) =>
      let stage := History.stage buyEvent in
      if negb (EMarketEventStage_has stage) then
        (Throw (raise (MiddlewareError EErrorType.UnknownStage None NoData)),
         log)
      else (Return stage, log)
  end.

End Layer.

(* ================================================================== *)
(** ** Vocabulary of the statements *)

(** One invocation, with a bound that the queue makes sufficient. *)
Definition run sc this (td : option TradeData) (st : Run)
  : option (Completion Exn Purchase.t * Run) :=
  buyAttempt sc this td (S (List.length (offers st))) st.

(** What an attempt whose own call was a silent retry does to the
    settlement of the attempts after it. *)
Definition rethrow sc (instance : Offer.t)
    (settled : option (Completion Exn Purchase.t * Run))
  : option (Completion Exn Purchase.t * Run) :=
  match settled with
  | Some (Throw err, st) => Some (Throw (attach sc instance err), st)
  | _ => settled
  end.

(** The shared state only moves forward: the queue shrinks, the calls made
    are kept, and the flag is never cleared. *)
Definition extends (st st' : Run) : Prop :=
  (List.length (offers st') <= List.length (offers st))%nat /\
  (exists l, calls st' = calls st ++ l) /\
  (badItemPrice st = true -> badItemPrice st' = true).

(** A BadOfferPrice error leaves the loop only with the flag set. *)
Definition flagged (r : Completion Exn Purchase.t) (st' : Run) : Prop :=
  forall e, r = Throw e ->
            is_middleware_of EErrorType.BadOfferPrice e = true ->
            badItemPrice st' = true.

(** The purchase calls that attempting every offer of [pre] in turn issues,
    when [rest] is what follows [pre] in the queue. *)
Fixpoint attempted this (pre rest : list Offer.t) : list (Offer.t * Z) :=
  match pre with
  | [] => []
  | shifted :: pre' =>
      let instance := hackExpired this shifted (pre' ++ rest) in
      (instance, Offer.price instance) :: attempted this pre' rest
  end.

(** A settlement without the properties that handlers attach to an error
    on its way out. *)
Definition outcome (settled : option (Completion Exn Purchase.t * Run))
  : option (Completion JsError Purchase.t * Run) :=
  match settled with
  | Some (Return data, st) => Some (Return data, st)
  | Some (Throw err, st) => Some (Throw (thrown err), st)
  | None => None
  end.

(** In an invocation whose purchase calls are [attempts], in this order,
    the n-th call settles as [r]. *)
Definition classified this (td : option TradeData)
    (attempts : list (Offer.t * Z)) (n : nat)
    (r : Completion Exn (option Purchase.t)) : Prop :=
  forall a, nth_error attempts n = Some a -> _tryToBuy this n (fst a) td = r.

(** Every call of the list is for a price within the balance. *)
Definition within_balance this (attempts : list (Offer.t * Z)) : Prop :=
  Forall (fun a => snd a <= _getAccountBalance this) attempts.

(** The raw message that the table holds under [name]. *)
Definition message_of (name : string) : option string :=
  match EMarketMessage.get name with
  | JsString m => Some m
  | _ => None
  end.

Definition fatal (ty : EErrorType.t) (source : EErrorSource.t) (data : ErrData)
  : Completion Exn (option Purchase.t) :=
  Throw (raise (MiddlewareError ty (Some source) data)).

Definition BadOfferPrice_error : JsError :=
  MiddlewareError EErrorType.BadOfferPrice (Some EErrorSource.Market) NoData.

Definition AttemptsFailed_error : JsError :=
  MiddlewareError EErrorType.AttemptsFailed (Some EErrorSource.Market) NoData.

(** The order of the offer queue, and the comparator that [prepareOffers]
    sorts with. *)
Definition by_price (a b : Offer.t) : Prop := Offer.price a <= Offer.price b.

Definition price_order (a b : Offer.t) : Z := Offer.price a - Offer.price b.

(** The ceiling that [getItemOffers] filters with. *)
Definition allowedPrice this (maxPrice : option Z) : Z :=
  js_or (preparePrice (_config this)) maxPrice Number_MAX_VALUE.

(** An offer that both filters of [prepareOffers] keep. *)
Definition eligible (mhn : string) (ceiling : Z) (item : Offer.t) : bool :=
  (Offer.price item <=? ceiling) && positive (Offer.offers item)
  && String.eqb (Offer.hashName item) mhn.

(** The instant that [getBoughtItems] centres its window on. *)
Definition centre (tz : Z -> Z) this (t : Z) : Z :=
  if handleTimezone (_config this) then t + (- (0 - tz t)) * 60 * 1000 else t.

(** A history request answered with a success that holds [events]. *)
Definition found (events : list History.Event) : History.Outcome :=
  History.Resolved {| History.success := true; History.data := Some events |}.

(** The buy event of the item among the events of a history answer. *)
Definition buyEvent_in (buyV2 : string) (marketId : Z)
    (events : list History.Event) : option History.Event :=
  extractItem marketId
    (filter (fun ev => String.eqb (History.event ev) buyV2) events).

(** What [getItem] makes of the outcome of its history request. *)
Definition item_of (buyV2 : string) (marketId : Z) (o : History.Outcome)
  : Completion Caught History.Event :=
  match o with
  | History.Rejected e => Throw e
  | History.Resolved h =>
      if History.success h then
        match History.data h with
        | None => Throw (Object (raise TypeError))
        | Some events =>
            match buyEvent_in buyV2 marketId events with
            | Some ev => Return ev
            | None =>
                Throw (Object (raise (MiddlewareError EErrorType.NotFound
                                        None NoData)))
            end
        end
      else Throw (Object (raise (MiddlewareError EErrorType.HistoryFailed
                                   None NoData)))
  end.

(** What [getItemState] makes of the event it found. *)
Definition stage_of (has : Z -> bool) (ev : History.Event) : Completion Exn Z :=
  if has (History.stage ev) then Return (History.stage ev)
  else Throw (raise (MiddlewareError EErrorType.UnknownStage None NoData)).

Definition NotFound_for (marketId : Z) : Exn :=
  mkExn (MiddlewareError EErrorType.NotFound None NoData) None (Some marketId).

(* ================================================================== *)
(** ** Concrete inputs *)

Definition item_name : string := "AK-47 | Redline"%string.
Definition buy_v2 : string := "buy_v2"%string.
Definition purchase_time : Z := 1600000000000.

(** An offer as [extractOffers] builds it, listed at [p]. *)
Definition offer_at (p : Z) : Offer.t :=
  Offer.mk item_name "0"%string "310776560"%string p (Some 1) None.

Definition config_of (hack discounts timezone : bool) : CMarketConfig :=
  {| hackExpiredOffers := hack;
     applyDiscounts := discounts;
     handleTimezone := timezone;
     preparePrice := fun p => p |}.

Definition no_search : Search.Response :=
  {| Search.success := false; Search.data := None |}.

Definition no_history : History.Outcome :=
  History.Resolved {| History.success := false; History.data := None |}.

(** A layer whose purchase calls are answered by [buy]. *)
Definition buyer (hack : bool) (wallet : option Z) (buy : nat -> Buy.Outcome)
  : MarketLayer :=
  {| _config := config_of hack false false;
     api := {| buyV2CreateFor := fun n _ _ _ => buy n;
               searchV2ItemByHash := fun _ => no_search;
               accountV2GetHistory := fun _ _ _ => no_history |};
     _wallet := wallet;
     _buyDiscount := None |}.

Definition sold : Buy.Outcome :=
  Buy.Resolved {| Buy.success := true; Buy.id := 7 |}.

Definition unsold : Buy.Outcome :=
  Buy.Resolved {| Buy.success := false; Buy.id := 0 |}.

Definition rejected_with (m : string) : Buy.Outcome :=
  Buy.Rejected (Buy.structured (Some m) None).

Definition no_statusCode : EErrorType.t -> option Z := fun _ => None.

(** Purchase calls answered from a list, then by [sold]. *)
Definition scripted (answers : list Buy.Outcome) : nat -> Buy.Outcome :=
  fun n => nth n answers sold.

Definition BadOfferPrice_message : string :=
  "Покупка данного предмета по такой цене невозможна. Обратитесь в техподдержку"%string.

(** A rejection in a wording the table does not hold. *)
Definition unheard_of : string := "Not enough money on the account"%string.

(** A layer whose catalogue lookups are answered by [found]. *)
Definition shopper (found : Search.Response) : MarketLayer :=
  {| _config := config_of true false false;
     api := {| buyV2CreateFor := fun _ _ _ _ => sold;
               searchV2ItemByHash := fun _ => found;
               accountV2GetHistory := fun _ _ _ => no_history |};
     _wallet := None;
     _buyDiscount := None |}.

Definition listing (name : string) (p n : Z) : Search.RawItem :=
  {| Search.hash := name;
     Search.instanceId := "0"%string;
     Search.classId := "310776560"%string;
     Search.price := p;
     Search.offers := Some n;
     Search.count := None |}.

Definition listings (items : list Search.RawItem) : Search.Response :=
  {| Search.success := true; Search.data := Some items |}.

(** A provider that answers a history request with the events of a ledger
    that fall in the requested window. *)
Definition ledger (events : list (Z * History.Event))
  : nat -> Z -> Z -> History.Outcome :=
  fun _ start finish =>
    found (map snd (filter (fun te => (start <=? fst te) && (fst te <=? finish))
                           events)).

Definition auditor (timezone : bool) (history : nat -> Z -> Z -> History.Outcome)
  : MarketLayer :=
  {| _config := config_of true false timezone;
     api := {| buyV2CreateFor := fun _ _ _ _ => sold;
               searchV2ItemByHash := fun _ => no_search;
               accountV2GetHistory := history |};
     _wallet := None;
     _buyDiscount := None |}.

Definition bought_at (item stage : Z) : History.Event :=
  {| History.event := buy_v2; History.item_id := item;
     History.stage := stage |}.

Definition known_stage (stage : Z) : bool := (1 <=? stage) && (stage <=? 5).

Definition Moscow : Z -> Z := fun _ => -180.
Definition Greenwich : Z -> Z := fun _ => 0.
Definition epoch : nat -> Z := fun _ => 0.

(** A provider that turns the second and the fourth call down for their
    price, and the first and the third in an unknown wording. *)
Definition twice_BadOfferPrice : MarketLayer :=
  buyer true None
    (scripted [ rejected_with unheard_of;
                rejected_with BadOfferPrice_message;
                rejected_with unheard_of;
                rejected_with BadOfferPrice_message ]).

Definition never_sells : MarketLayer :=
  buyer true None (fun _ => rejected_with unheard_of).

Definition always_sells : MarketLayer := buyer true None (fun _ => sold).

Definition poor : MarketLayer := buyer true (Some 50) (fun _ => sold).

Definition four_listings : MarketLayer :=
  shopper (listings [ listing item_name 130 1;
                      listing item_name 110 2;
                      listing "AWP | Asiimov"%string 90 1;
                      listing item_name 100 1;
                      listing item_name 95 0 ]).

Definition one_listing : MarketLayer :=
  shopper (listings [ listing item_name 5 1 ]).

Definition dear_listings : MarketLayer :=
  shopper (listings [ listing item_name 130 1; listing item_name 125 3 ]).

(** A history with the purchase of item 42 recorded 100 seconds after the
    approximate time. *)
Definition late_entry : MarketLayer :=
  auditor false (ledger [ (purchase_time + 100000, bought_at 42 2) ]).

(* ================================================================== *)
(** ** The account operations of [MarketLayer]

    The operations below use other methods of [this.api] than the purchase,
    the catalogue and the history ones; these methods are kept in a record
    of their own. *)

(** A value that one of these promises rejects with, or that a handler
    throws: an object with its [message] property (an [Error], or a
    response object thrown as it is), or a primitive thrown as it is. *)
Inductive Reason : Set :=
| ErrorObject (message : JsVal)
| Primitive (v : JsVal).

(** [e.message]: [None] when reading it raises a [TypeError], which is for
    [undefined] and [null]. *)
Definition message_of_reason (e : Reason) : option JsVal :=
  match e with
  | ErrorObject message => Some message
  | Primitive JsUndefined | Primitive JsNull => None
  | Primitive _ => Some JsUndefined
  end.

(** What [ping] rejects with: the reason it caught, or the [TypeError] that
    its handler raised. *)
Inductive PingFailure : Set :=
| Rethrown (e : Reason)
| HandlerTypeError.

(** [new Error(message)]: a missing message gives the empty one. *)
Definition new_Error (message : option string) : Reason :=
  ErrorObject (JsString (match message with
                         | Some m => m
                         | None => EmptyString
                         end)).

Module Ping.
Record Response : Set := { success : bool; ping : JsVal }.
End Ping.

Module Token.
Record Response : Set := { success : bool; token : JsVal; error : option string }.
End Token.

Module WsAuth.
Record Response : Set := { success : bool; wsAuth : JsVal }.
End WsAuth.

Record AccountApi : Type := {
  accountPingPong : Completion Reason Ping.Response;
  accountGetToken : Completion Reason Token.Response;
  accountSetToken : string -> Completion Reason bool;
  accountV2GetWSAuth : nat -> Completion Reason WsAuth.Response
}.

Section Account.

Variable account : AccountApi.

(** [ping()]: the fulfilment handler, then the rejection handler chained
    after it. *)
Definition ping : Completion PingFailure JsVal :=
  let answered : Completion Reason JsVal :=
    match accountPingPong account with
    | Return data =>
        if Ping.success data then Return (Ping.ping data)
        else if negb (strict_eq (Ping.ping data)
                        (EMarketMessage.get "TooEarlyToPong"%string))
        then Throw (Primitive (Ping.ping data))
        else Return JsUndefined
    | Throw e => Throw e
    end in
  match answered with
  | Return v => Return v
  | Throw e =>
      match message_of_reason e with
      | None => Throw HandlerTypeError
      | Some message =>
          if negb (strict_eq message
                     (EMarketMessage.get "CheckTokenOrMobile"%string))
          then Return JsNull
          else Throw (Rethrown e)
      end
  end.

(** [setTradeToken(newToken)], with the tokens it sent to
    [accountSetToken].  The answer of [accountSetToken] is not looked at:
    the handler after it tests [data.success] of the answer of
    [accountGetToken]. *)
Definition setTradeToken (newToken : string)
  : Completion Reason unit * list string :=
  match accountGetToken account with
  | Throw e => (Throw e, [])
  | Return data =>
      if Token.success data
         && negb (strict_eq (Token.token data) (JsString newToken))
      then
        match accountSetToken account newToken with
        | Throw e => (Throw e, [newToken])
        | Return _ =>
            if negb (Token.success data)
            then (Throw (new_Error (Token.error data)), [newToken])
            else (Return tt, [newToken])
        end
      else (Return tt, [])
  end.

(** [getWsAuth()] as the call that follows [n] earlier ones: every failure
    is logged and followed by another call.  [fuel] bounds the number of
    calls and [None] is the exhausted bound; the result is [wsAuth] with
    the number of calls made. *)
Fixpoint getWsAuth (fuel : nat) (n : nat) : option (JsVal * nat) :=
  match fuel with
  | O => None
  | S fuel' =>
      match accountV2GetWSAuth account n with
      | Return auth =>
          if negb (WsAuth.success auth) then getWsAuth fuel' (S n)
          else Some (WsAuth.wsAuth auth, S n)
      | Throw _ => getWsAuth fuel' (S n)
      end
  end.

End Account.

(** *** The wallet and the discount *)

(** The constructor, given the configuration and the [MarketApi] object it
    builds. *)
Definition new_MarketLayer (config : CMarketConfig) (market : MarketApi)
  : MarketLayer :=
  {| _config := config; api := market; _wallet := None; _buyDiscount := None |}.

Definition setAccountBalance (botWallet : Z) (this : MarketLayer) : MarketLayer :=
  {| _config := _config this; api := api this;
     _wallet := Some botWallet; _buyDiscount := _buyDiscount this |}.

(** [_getBuyDiscount()] returns 0 before anything else. *)
Definition _getBuyDiscount : Q := 0%Q.

(** The watcher that [start] sets when [applyDiscounts] is on:
    [this._buyDiscount = await this._getBuyDiscount()]. *)
Definition discountWatcher (this : MarketLayer) : MarketLayer :=
  {| _config := _config this; api := api this;
     _wallet := _wallet this; _buyDiscount := Some _getBuyDiscount |}.

(** What can change a layer after its construction. *)
Inductive Change : Set :=
| BalanceSet (botWallet : Z)
| DiscountUpdated.

Definition change (this : MarketLayer) (c : Change) : MarketLayer :=
  match c with
  | BalanceSet botWallet => setAccountBalance botWallet this
  | DiscountUpdated => discountWatcher this
  end.

Definition after (changes : list Change) (this : MarketLayer) : MarketLayer :=
  fold_left change changes this.

(** *** Vocabulary of the further statements *)

(** The errors that the rejection handler of [_tryToBuy] builds, for an
    attempt at [uprice]. *)
Definition fatal_settlements (uprice : Z)
  : list (Completion Exn (option Purchase.t)) :=
  [ fatal EErrorType.BadOfferPrice EErrorSource.Market NoData;
    fatal EErrorType.NeedToTake EErrorSource.Owner NoData;
    fatal EErrorType.NeedMoney EErrorSource.Owner (NeedMoneyData uprice);
    fatal EErrorType.InvalidToken EErrorSource.User NoData;
    fatal EErrorType.InventoryClosed EErrorSource.User NoData;
    fatal EErrorType.UnableOfflineTrade EErrorSource.User NoData;
    fatal EErrorType.VacGameBan EErrorSource.User NoData;
    fatal EErrorType.BotCanceledTrades EErrorSource.User NoData;
    fatal EErrorType.CanceledTrades EErrorSource.User NoData ].

(** The n-th call of [accountV2GetWSAuth] is a failure: it rejects, or it
    resolves without [success]. *)
Definition auth_fails (account : AccountApi) (n : nat) : Prop :=
  match accountV2GetWSAuth account n with
  | Return auth => WsAuth.success auth = false
  | Throw _ => True
  end.

(** No name occurs twice. *)
Fixpoint distinct (names : list string) : bool :=
  match names with
  | [] => true
  | name :: names' =>
      negb (existsb (String.eqb name) names') && distinct names'
  end.

Definition CheckTokenOrMobile : JsVal :=
  EMarketMessage.get "CheckTokenOrMobile"%string.

Definition TooEarlyToPong : JsVal :=
  EMarketMessage.get "TooEarlyToPong"%string.

(** *** Further concrete inputs *)

Definition five_offers : list Offer.t :=
  [offer_at 100; offer_at 150; offer_at 170; offer_at 200; offer_at 250].

Definition rejects_for_the_price : MarketLayer :=
  buyer true None (fun _ => rejected_with BadOfferPrice_message).

(** A layer with a catalogue of four listings of the item, whose purchase
    calls are answered by [buy]. *)
Definition customer (buy : Buy.Outcome) : MarketLayer :=
  {| _config := config_of true false false;
     api := {| buyV2CreateFor := fun _ _ _ _ => buy;
               searchV2ItemByHash :=
                 fun _ => listings [ listing item_name 130 1;
                                     listing item_name 110 2;
                                     listing item_name 100 1 ];
               accountV2GetHistory := fun _ _ _ => no_history |};
     _wallet := None;
     _buyDiscount := None |}.

Definition listed (p n : Z) : Offer.t :=
  Offer.mk item_name "0"%string "310776560"%string p (Some n) None.

(** A history that answers the first request with nothing and fails on the
    second one. *)
Definition fails_at_second : nat -> Z -> Z -> History.Outcome :=
  fun n _ _ =>
    match n with
    | O => found []
    | S _ => no_history
    end.

(** An error object of the provider's client, with no [type]. *)
Definition gateway_timeout : Exn :=
  raise (ForeignError None (Some 504) "Gateway Timeout"%string).

(** A layer whose history requests all reject with [e]. *)
Definition rejects (e : Caught) : MarketLayer :=
  auditor false (fun _ _ _ => History.Rejected e).

(** A balance that covers the attempts at the first two of the offers
    priced 100, 150 and 170, and not the last one, with a provider that
    turns every call down in an unknown wording. *)
Definition short_of_the_last : MarketLayer :=
  buyer true (Some 169) (fun _ => rejected_with unheard_of).

Definition failed_ping : Ping.Response :=
  {| Ping.success := false;
     Ping.ping := JsString "token_check_or_mobile_authenticator"%string |}.

Definition token_is (t : string) : Token.Response :=
  {| Token.success := true; Token.token := JsString t; Token.error := None |}.

(** An account whose ping fails with the text of CheckTokenOrMobile, whose
    token is "old" and cannot be set, and whose third call for [wsAuth] is
    the first to succeed. *)
Definition troubled : AccountApi :=
  {| accountPingPong := Return failed_ping;
     accountGetToken := Return (token_is "old"%string);
     accountSetToken := fun _ => Return false;
     accountV2GetWSAuth :=
       fun n =>
         match n with
         | O => Throw (ErrorObject (JsString "timeout"%string))
         | S O => Return {| WsAuth.success := false; WsAuth.wsAuth := JsUndefined |}
         | _ => Return {| WsAuth.success := true;
                          WsAuth.wsAuth := JsString "ws-key"%string |}
         end |}.

(** An account whose ping request rejects with [message]. *)
Definition unreachable (message : string) : AccountApi :=
  {| accountPingPong := Throw (ErrorObject (JsString message));
     accountGetToken := Throw (ErrorObject (JsString message));
     accountSetToken := fun _ => Throw (ErrorObject (JsString message));
     accountV2GetWSAuth := fun _ => Throw (ErrorObject (JsString message)) |}.

(* ================================================================== *)
(** * Properties *)

(** ** Classification of a rejected purchase *)

Lemma hash_in_unknown tbl message :
  existsb (fun kv => strict_eq (snd kv) message) tbl = false ->
  EMarketMessage.hash_in tbl message = JsNull.
Proof.
  induction tbl as [|[name v] tbl IH]; cbn; [reflexivity|].
  destruct (strict_eq v message); cbn; [discriminate|exact IH].
Qed.

(** A raw message outside the table reads as [undefined] after the
    round trip through [hash], and [undefined] is what the case
    [EMarketMessage.FailedToFindItem], a member the table lacks, tests for. *)
Lemma classify_unknown m result uprice :
  EMarketMessage.known m = false ->
  classify uprice (Buy.structured (Some m) result) = Return None.
Proof.
  intros Hk. unfold classify, Buy.structured.
  cbn [bind prop_of Buy.response Buy.body Buy.body_error Buy.error of_field].
  unfold EMarketMessage.hash. rewrite (hash_in_unknown _ _ Hk).
  reflexivity.
Qed.

(** What the handler makes of each message of the table that a purchase
    can be rejected with, and of the members it has no case for. *)
Lemma classification_table uprice result :
  let settle name := classify uprice (Buy.structured (message_of name) result) in
  map settle
    [ "BadOfferPrice"; "BuyOfferExpired"; "SomebodyBuying"; "RequestErrorNoList";
      "SteamOrBotProblems"; "BotIsBanned"; "ServerError7"; "NeedToTake";
      "NeedMoney"; "InvalidTradeLink"; "SteamInventoryPrivate";
      "OfflineTradeProblem"; "VacGameBan"; "BuyCanceledTrades";
      "CanceledTrades"; "RequestErrorItemListFail"; "BadTokenInvClosed";
      "Ok" ]%string
  = [ fatal EErrorType.BadOfferPrice EErrorSource.Market NoData;
      Return None; Return None; Return None;
      Return None; Return None; Return None;
      fatal EErrorType.NeedToTake EErrorSource.Owner NoData;
      fatal EErrorType.NeedMoney EErrorSource.Owner (NeedMoneyData uprice);
      fatal EErrorType.InvalidToken EErrorSource.User NoData;
      fatal EErrorType.InventoryClosed EErrorSource.User NoData;
      fatal EErrorType.UnableOfflineTrade EErrorSource.User NoData;
      fatal EErrorType.VacGameBan EErrorSource.User NoData;
      fatal EErrorType.BotCanceledTrades EErrorSource.User NoData;
      fatal EErrorType.CanceledTrades EErrorSource.User NoData;
      Return None; Return None; Return None ].
Proof. reflexivity. Qed.

(** ** The purchase loop *)

Section Loop.

Variable sc : EErrorType.t -> option Z.
Variable this : MarketLayer.
Variable td : option TradeData.

Lemma thrown_attach (instance : Offer.t) (err : Exn) :
  thrown (attach sc instance err) = thrown err.
Proof. unfold attach. destruct (truthy _); reflexivity. Qed.

Lemma is_middleware_of_attach ty (instance : Offer.t) (err : Exn) :
  is_middleware_of ty (attach sc instance err) = is_middleware_of ty err.
Proof. unfold is_middleware_of. now rewrite thrown_attach. Qed.

Lemma onRejected_cases instance retry err st :
  (is_middleware_of EErrorType.BadOfferPrice err = true /\
   badItemPrice st = false /\
   onRejected sc instance retry err st = retry (set_badItemPrice st)) \/
  ((is_middleware_of EErrorType.BadOfferPrice err = true -> badItemPrice st = true) /\
   onRejected sc instance retry err st = Some (Throw (attach sc instance err), st)).
Proof.
  unfold onRejected.
  destruct (is_middleware_of _ err); destruct (badItemPrice st); simpl; auto.
Qed.

Lemma extends_refl st : extends st st.
Proof.
  repeat split; auto. exists []. now rewrite app_nil_r.
Qed.

Lemma extends_trans st1 st2 st3 :
  extends st1 st2 -> extends st2 st3 -> extends st1 st3.
Proof.
  intros (A & (l & B) & C) (A' & (l' & B') & C'). repeat split; auto.
  - lia.
  - exists (l ++ l'). now rewrite B', B, app_assoc.
Qed.

Lemma extends_set_badItemPrice st : extends st (set_badItemPrice st).
Proof.
  repeat split; auto. exists []. cbn. now rewrite app_nil_r.
Qed.

Lemma extends_shift st shifted rest log :
  offers st = shifted :: rest ->
  extends st (mkRun rest (badItemPrice st) (calls st ++ log)).
Proof.
  intros Hq. unfold extends. cbn. rewrite Hq. cbn. repeat split; eauto.
Qed.

Lemma flagged_raise ty source data st :
  EErrorType.eqb ty EErrorType.BadOfferPrice = false ->
  flagged (Throw (raise (MiddlewareError ty source data))) st.
Proof.
  intros Hty e He Hb. inversion He; subst.
  unfold is_middleware_of in Hb. cbn in Hb. congruence.
Qed.

(** The handler keeps what the attempts it may start keep. *)
Lemma onRejected_inv instance retry err st r st' :
  (forall st0 r0 st0', retry st0 = Some (r0, st0') ->
     extends st0 st0' /\ flagged r0 st0') ->
  onRejected sc instance retry err st = Some (r, st') ->
  extends st st' /\ flagged r st'.
Proof.
  intros IH H.
  destruct (onRejected_cases instance retry err st)
    as [(_ & _ & E) | (Hb & E)]; rewrite E in H.
  - apply IH in H. destruct H as [Hx Hf]. split; [|exact Hf].
    eapply extends_trans; [apply extends_set_badItemPrice|exact Hx].
  - inversion H; subst; clear H. split; [apply extends_refl|].
    intros e He Hbe. inversion He; subst.
    rewrite is_middleware_of_attach in Hbe. auto.
Qed.

(** What one invocation leaves behind. *)
Lemma buyAttempt_inv : forall fuel st r st',
  buyAttempt sc this td fuel st = Some (r, st') ->
  extends st st' /\ flagged r st'.
Proof.
  induction fuel as [|fuel IH]; intros st r st' H; [discriminate|].
  cbn [buyAttempt] in H.
  destruct (offers st) as [|shifted rest] eqn:Hq.
  - inversion H; subst; clear H.
    split; [apply extends_refl|now apply flagged_raise].
  - set (instance := hackExpired this shifted rest) in *.
    destruct (Offer.price instance >? _getAccountBalance this).
    { inversion H; subst; clear H. split; [|now apply flagged_raise].
      rewrite <- (app_nil_r (calls st)). now apply (extends_shift st shifted). }
    pose proof (extends_shift st shifted rest
                  [(instance, Offer.price instance)] Hq) as Hshift.
    set (st2 := mkRun rest (badItemPrice st) _) in *.
    destruct (_tryToBuy this (List.length (calls st)) instance td) as [[data|]|err].
    + inversion H; subst; clear H. split; [exact Hshift|discriminate].
    + destruct (buyAttempt sc this td fuel st2) as [[[d|err] st3]|] eqn:Hin;
        try discriminate; apply IH in Hin; destruct Hin as [Hx Hf].
      * inversion H; subst; clear H. split; [|discriminate].
        eapply extends_trans; eauto.
      * apply (onRejected_inv _ _ _ _ _ _ (IH)) in H. destruct H as [Hx' Hf'].
        split; [|exact Hf']. eauto using extends_trans.
    + apply (onRejected_inv _ _ _ _ _ _ (IH)) in H. destruct H as [Hx' Hf'].
      split; [|exact Hf']. eauto using extends_trans.
Qed.

Lemma buyAttempt_shrinks fuel st r st' :
  buyAttempt sc this td fuel st = Some (r, st') ->
  (List.length (offers st') <= List.length (offers st))%nat.
Proof. intros H. apply buyAttempt_inv in H. apply H. Qed.

Lemma buyAttempt_keeps_BadOfferPrice fuel st e st' :
  buyAttempt sc this td fuel st = Some (Throw e, st') ->
  is_middleware_of EErrorType.BadOfferPrice e = true ->
  badItemPrice st' = true.
Proof.
  intros H Hb. apply buyAttempt_inv in H. destruct H as [_ Hf].
  now apply (Hf e).
Qed.

(** The handler of an attempt that was followed by others never retries:
    the error it sees has been through their handlers. *)
Lemma onRejected_after fuel' fuel st err st3 instance :
  buyAttempt sc this td fuel st = Some (Throw err, st3) ->
  onRejected sc instance (buyAttempt sc this td fuel') err st3
  = Some (Throw (attach sc instance err), st3).
Proof.
  intros H.
  destruct (onRejected_cases instance (buyAttempt sc this td fuel') err st3)
    as [(Hb & Hf & _) | (_ & E)]; [|exact E].
  rewrite (buyAttempt_keeps_BadOfferPrice _ _ _ _ H Hb) in Hf. discriminate.
Qed.

(** A bound above the length of the queue is never exhausted. *)
Lemma buyAttempt_total : forall fuel st,
  (List.length (offers st) < fuel)%nat ->
  exists r st', buyAttempt sc this td fuel st = Some (r, st').
Proof.
  induction fuel as [|fuel IH]; intros st Hlt; [lia|].
  cbn [buyAttempt].
  destruct (offers st) as [|shifted rest] eqn:Hq; [eauto|].
  cbn [List.length] in Hlt.
  set (instance := hackExpired this shifted rest).
  destruct (Offer.price instance >? _getAccountBalance this); [eauto|].
  set (st2 := mkRun rest (badItemPrice st) _).
  assert (Hrej : forall err st3,
    (List.length (offers st3) <= List.length rest)%nat ->
    exists r st',
      onRejected sc instance (buyAttempt sc this td fuel) err st3 = Some (r, st')).
  { intros err st3 Hle.
    destruct (onRejected_cases instance (buyAttempt sc this td fuel) err st3)
      as [(_ & _ & E) | (_ & E)]; rewrite E; [|eauto].
    apply IH. cbn. lia. }
  destruct (_tryToBuy this (List.length (calls st)) instance td) as [[data|]|err].
  - eauto.
  - destruct (IH st2) as (r & st3 & E); [cbn; lia|].
    rewrite E. destruct r as [d|err]; [eauto|].
    apply Hrej. apply buyAttempt_shrinks in E. exact E.
  - apply Hrej. cbn. lia.
Qed.

(** Any two sufficient bounds give the same settlement. *)
Lemma buyAttempt_fuel : forall fuel fuel' st,
  (List.length (offers st) < fuel)%nat ->
  (List.length (offers st) < fuel')%nat ->
  buyAttempt sc this td fuel st = buyAttempt sc this td fuel' st.
Proof.
  induction fuel as [|fuel IH]; intros [|fuel'] st Hlt Hlt'; try lia.
  cbn [buyAttempt].
  destruct (offers st) as [|shifted rest] eqn:Hq; [reflexivity|].
  cbn [List.length] in Hlt, Hlt'.
  set (instance := hackExpired this shifted rest).
  destruct (Offer.price instance >? _getAccountBalance this); [reflexivity|].
  set (st2 := mkRun rest (badItemPrice st) _).
  assert (Hrej : forall err st3,
    (List.length (offers st3) <= List.length rest)%nat ->
    onRejected sc instance (buyAttempt sc this td fuel) err st3
    = onRejected sc instance (buyAttempt sc this td fuel') err st3).
  { intros err st3 Hle. unfold onRejected.
    destruct (_ && _); [|reflexivity].
    apply IH; cbn; lia. }
  destruct (_tryToBuy this (List.length (calls st)) instance td) as [[data|]|err].
  - reflexivity.
  - rewrite (IH fuel' st2) by (cbn; lia).
    destruct (buyAttempt sc this td fuel' st2) as [[[d|err] st3]|] eqn:E;
      try reflexivity.
    apply Hrej. apply buyAttempt_shrinks in E. exact E.
  - apply Hrej. cbn. lia.
Qed.

Lemma buyAttempt_run fuel st :
  (List.length (offers st) < fuel)%nat ->
  buyAttempt sc this td fuel st = run sc this td st.
Proof. intros H. unfold run. apply buyAttempt_fuel; lia. Qed.

Lemma run_total st : exists r st', run sc this td st = Some (r, st').
Proof. apply buyAttempt_total. lia. Qed.

(** [buyCheapest] always settles: the bound it is given is sufficient. *)
Lemma buyCheapest_settles queue :
  exists r st', buyCheapest sc this queue td = Some (r, st').
Proof. apply (run_total (mkRun queue false [])). Qed.

(** *** The equations of the loop *)

Lemma run_empty st :
  offers st = [] ->
  run sc this td st = Some (Throw (raise AttemptsFailed_error), st).
Proof. intros Hq. unfold run. rewrite Hq. cbn. now rewrite Hq. Qed.

Lemma run_NeedMoney st shifted rest :
  offers st = shifted :: rest ->
  _getAccountBalance this < Offer.price (hackExpired this shifted rest) ->
  run sc this td st
  = Some (Throw (raise (MiddlewareError EErrorType.NeedMoney
                          (Some EErrorSource.Owner)
                          (NeedMoneyData (Offer.price (hackExpired this shifted rest))))),
          mkRun rest (badItemPrice st) (calls st)).
Proof.
  intros Hq Hlt. unfold run. rewrite Hq. cbn [List.length buyAttempt]. rewrite Hq.
  replace (_ >? _) with true; [reflexivity|].
  symmetry. apply Z.gtb_lt. exact Hlt.
Qed.

Lemma run_step st shifted rest :
  offers st = shifted :: rest ->
  Offer.price (hackExpired this shifted rest) <= _getAccountBalance this ->
  run sc this td st =
  match _tryToBuy this (List.length (calls st)) (hackExpired this shifted rest) td with
  | Return (Some data) =>
      Some (Return data,
            mkRun rest (badItemPrice st)
              (calls st ++ attempted this [shifted] rest))
  | Return None =>
      rethrow sc (hackExpired this shifted rest)
        (run sc this td
           (mkRun rest (badItemPrice st)
              (calls st ++ attempted this [shifted] rest)))
  | Throw err =>
      if is_middleware_of EErrorType.BadOfferPrice err && negb (badItemPrice st)
      then run sc this td
             (mkRun rest true (calls st ++ attempted this [shifted] rest))
      else Some (Throw (attach sc (hackExpired this shifted rest) err),
                 mkRun rest (badItemPrice st)
                   (calls st ++ attempted this [shifted] rest))
  end.
Proof.
  intros Hq Hadm.
  unfold run at 1. rewrite Hq. cbn [List.length].
  remember (S (List.length rest)) as fuel eqn:Hfuel.
  cbn [buyAttempt attempted app]. rewrite Hq.
  set (instance := hackExpired this shifted rest) in *.
  set (st2 := mkRun rest (badItemPrice st) (calls st ++ _)).
  replace (Offer.price instance >? _getAccountBalance this) with false
    by (symmetry; rewrite Z.gtb_ltb; apply Z.ltb_ge; exact Hadm).
  destruct (_tryToBuy this (List.length (calls st)) instance td) as [[data|]|err].
  - reflexivity.
  - rewrite (buyAttempt_run fuel st2) by (cbn; lia).
    destruct (run sc this td st2) as [[[d|err] st3]|] eqn:E; try reflexivity.
    cbn [rethrow]. unfold run in E. eapply onRejected_after. exact E.
  - unfold onRejected. cbn [badItemPrice st2].
    destruct (_ && _); [|reflexivity].
    apply buyAttempt_run. cbn. lia.
Qed.


Lemma outcome_rethrow instance settled :
  outcome (rethrow sc instance settled) = outcome settled.
Proof.
  destruct settled as [[[d|err] st]|]; cbn; try reflexivity.
  now rewrite thrown_attach.
Qed.

Lemma attempted_app pre mid rest :
  attempted this (pre ++ mid) rest
  = attempted this pre (mid ++ rest) ++ attempted this mid rest.
Proof.
  induction pre as [|x pre IH]; cbn; [reflexivity|].
  now rewrite IH, <- app_assoc.
Qed.

Lemma length_attempted pre rest :
  List.length (attempted this pre rest) = List.length pre.
Proof. induction pre; cbn; congruence. Qed.

Lemma classified_prefix attempts more n r :
  classified this td (attempts ++ more) n r ->
  classified this td attempts n r.
Proof.
  intros H a Ha. apply H. rewrite nth_error_app1; [exact Ha|].
  apply nth_error_Some. congruence.
Qed.

Lemma classified_next log instance uprice more r :
  classified this td (log ++ (instance, uprice) :: more) (List.length log) r ->
  _tryToBuy this (List.length log) instance td = r.
Proof.
  intros H. apply (H (instance, uprice)). rewrite nth_error_app2 by lia.
  now rewrite Nat.sub_diag.
Qed.

(** A run of silent retries hands the rest of the queue to the attempts
    after it. *)
Lemma run_silent_prefix : forall pre rest st,
  offers st = pre ++ rest ->
  within_balance this (attempted this pre rest) ->
  (forall n,
     (List.length (calls st) <= n < List.length (calls st) + List.length pre)%nat ->
     classified this td (calls st ++ attempted this pre rest) n (Return None)) ->
  outcome (run sc this td st)
  = outcome (run sc this td
               (mkRun rest (badItemPrice st) (calls st ++ attempted this pre rest))).
Proof.
  induction pre as [|x pre IH]; intros rest st Hq Hw Hs.
  - cbn in *. rewrite app_nil_r. destruct st; cbn in *. now subst.
  - cbn [app] in Hq. cbn [attempted] in Hw, Hs.
    inversion Hw as [|a l Ha Hl]; subst. cbn [snd] in Ha.
    rewrite (run_step st x (pre ++ rest) Hq Ha).
    rewrite (classified_next _ _ _ _ _ (Hs (List.length (calls st)) ltac:(cbn; lia))).
    rewrite outcome_rethrow.
    rewrite (IH rest); cbn [offers badItemPrice calls]; auto.
    + cbn [attempted app]. now rewrite <- app_assoc.
    + intros n Hn. cbn [attempted app]. rewrite <- app_assoc. apply Hs.
      rewrite length_app in Hn. cbn in *. lia.
Qed.

Lemma run_first_call st shifted rest :
  offers st = shifted :: rest ->
  Offer.price (hackExpired this shifted rest) <= _getAccountBalance this ->
  exists r st' more,
    run sc this td st = Some (r, st') /\
    calls st' = calls st ++ attempted this [shifted] rest ++ more.
Proof.
  intros Hq Hadm. rewrite (run_step st shifted rest Hq Hadm).
  set (st2 := mkRun rest (badItemPrice st) _).
  assert (Hrun : forall st3, calls st3 = calls st2 ->
            exists r st' more, run sc this td st3 = Some (r, st') /\
              calls st' = calls st ++ attempted this [shifted] rest ++ more).
  { intros st3 Hc. destruct (run_total st3) as (r & st' & E).
    destruct (buyAttempt_inv _ _ _ _ E) as ((_ & (l & Hl) & _) & _).
    exists r, st', l. split; [exact E|].
    rewrite Hl, Hc. cbn. now rewrite <- app_assoc. }
  destruct (_tryToBuy _ _ _ _) as [[data|]|err].
  - exists (Return data), st2, []. split; [reflexivity|].
    cbn. rewrite ?app_nil_r. reflexivity.
  - destruct (Hrun st2 eq_refl) as (r & st' & more & E & Hc). rewrite E.
    destruct r as [d|err]; cbn [rethrow]; eauto.
  - destruct (_ && _).
    + apply Hrun. reflexivity.
    + eexists _, st2, []. split; [reflexivity|]. cbn. rewrite ?app_nil_r. reflexivity.
Qed.

Lemma hackExpired_ge shifted rest :
  Offer.price shifted <= Offer.price (hackExpired this shifted rest).
Proof.
  unfold hackExpired. destruct rest as [|next rest]; [lia|].
  destruct (hackExpiredOffers _); cbn; lia.
Qed.

Lemma all_silent_fails : forall queue st,
  offers st = queue ->
  (forall n, classified this td (calls st ++ attempted this queue []) n
               (Return None)) ->
  exists e st',
    run sc this td st = Some (Throw e, st') /\
    (thrown e = AttemptsFailed_error \/
     exists p, thrown e = MiddlewareError EErrorType.NeedMoney
                            (Some EErrorSource.Owner) (NeedMoneyData p)).
Proof.
  induction queue as [|shifted rest IH]; intros st Hq Hs.
  - rewrite (run_empty st Hq). eauto.
  - destruct (Z.le_gt_cases (Offer.price (hackExpired this shifted rest))
                (_getAccountBalance this)) as [Hle|Hgt].
    + rewrite (run_step st shifted rest Hq Hle).
      cbn [attempted] in Hs. rewrite app_nil_r in Hs.
      rewrite (classified_next _ _ _ _ _ (Hs (List.length (calls st)))).
      destruct (IH (mkRun rest (badItemPrice st)
                      (calls st ++ attempted this [shifted] rest)) eq_refl)
        as (e & st' & E & He).
      { intros n. cbn [calls attempted app]. rewrite <- app_assoc. apply Hs. }
      rewrite E. cbn [rethrow]. exists (attach sc (hackExpired this shifted rest) e), st'.
      split; [reflexivity|]. now rewrite thrown_attach.
    + rewrite (run_NeedMoney st shifted rest Hq Hgt). eexists _, _.
      split; [reflexivity|]. right. eexists. reflexivity.
Qed.

(** A BadOfferPrice rejection met after a run of silent retries: fatal when
    the flag is set, otherwise the flag is set and the loop goes on. *)
Lemma run_BadOfferPrice pre c rest st :
  offers st = pre ++ c :: rest ->
  within_balance this (attempted this (pre ++ [c]) rest) ->
  (forall n,
     (List.length (calls st) <= n < List.length (calls st) + List.length pre)%nat ->
     classified this td (calls st ++ attempted this (pre ++ [c]) rest) n
       (Return None)) ->
  classified this td (calls st ++ attempted this (pre ++ [c]) rest)
    (List.length (calls st) + List.length pre)
    (Throw (raise BadOfferPrice_error)) ->
  outcome (run sc this td st)
  = if badItemPrice st
    then Some (Throw BadOfferPrice_error,
               mkRun rest true (calls st ++ attempted this (pre ++ [c]) rest))
    else outcome (run sc this td
                    (mkRun rest true (calls st ++ attempted this (pre ++ [c]) rest))).
Proof.
  intros Hq Hw Hs Hb.
  rewrite attempted_app in *. cbn [app] in *.
  apply Forall_app in Hw. destruct Hw as [Hw1 Hw2].
  inversion Hw2 as [|a l Hc _]; subst. cbn [snd] in Hc.
  rewrite (run_silent_prefix pre (c :: rest) st Hq Hw1).
  2:{ intros n Hn. apply (classified_prefix _ (attempted this [c] rest)).
      rewrite <- app_assoc. now apply Hs. }
  erewrite run_step; [|reflexivity|exact Hc].
  cbn [calls badItemPrice].
  rewrite app_assoc in Hb. cbn [attempted app] in Hb.
  rewrite <- (length_attempted pre (c :: rest)), <- length_app in Hb.
  rewrite (classified_next _ _ _ _ _ Hb).
  rewrite app_assoc.
  destruct (badItemPrice st); cbn; [|reflexivity].
  now rewrite thrown_attach.
Qed.

(** C1. Within one invocation of [buyCheapest], the first BadOfferPrice
    rejection is retried: the loop goes on with the rest of the queue, now
    with the flag set.  A second one is fatal: the BadOfferPrice error
    (source Market) reaches the caller and the offers after it are left
    untouched.  Between the start, the first and the second occurrence only
    silent retries can lie, since every other settlement ends the loop. *)
Theorem BadOfferPrice_retried_once pre c rest :
  let attempts := attempted this (pre ++ c :: rest) [] in
  within_balance this (attempted this (pre ++ [c]) rest) ->
  (forall n, (n < List.length pre)%nat ->
     classified this td attempts n (Return None)) ->
  classified this td attempts (List.length pre)
    (Throw (raise BadOfferPrice_error)) ->
  outcome (buyCheapest sc this (pre ++ c :: rest) td)
  = outcome (run sc this td (mkRun rest true (attempted this (pre ++ [c]) rest)))
  /\
  forall mid c2 post,
    rest = mid ++ c2 :: post ->
    within_balance this (attempted this (mid ++ [c2]) post) ->
    (forall n, (List.length pre < n <= List.length pre + List.length mid)%nat ->
       classified this td attempts n (Return None)) ->
    classified this td attempts (List.length pre + 1 + List.length mid)
      (Throw (raise BadOfferPrice_error)) ->
    outcome (buyCheapest sc this (pre ++ c :: rest) td)
    = Some (Throw BadOfferPrice_error,
            mkRun post true (attempted this (pre ++ c :: mid ++ [c2]) post)).
Proof.
  intros attempts Hw Hs Hb.
  assert (Hsplit : attempts
                   = attempted this (pre ++ [c]) rest ++ attempted this rest []).
  { unfold attempts.
    replace (pre ++ c :: rest) with ((pre ++ [c]) ++ rest)
      by (rewrite <- app_assoc; reflexivity).
    now rewrite attempted_app, app_nil_r. }
  assert (First :
    outcome (buyCheapest sc this (pre ++ c :: rest) td)
    = outcome (run sc this td (mkRun rest true (attempted this (pre ++ [c]) rest)))).
  { change (buyCheapest sc this (pre ++ c :: rest) td)
      with (run sc this td (mkRun (pre ++ c :: rest) false [])).
    rewrite (run_BadOfferPrice pre c rest); cbn [offers calls badItemPrice app];
      auto.
    - intros n Hn. apply (classified_prefix _ (attempted this rest [])).
      rewrite <- Hsplit. apply Hs. cbn in Hn. lia.
    - apply (classified_prefix _ (attempted this rest [])).
      rewrite <- Hsplit. exact Hb. }
  split; [exact First|].
  intros mid c2 post Hrest Hw2 Hs2 Hb2.
  assert (Hsplit2 : attempts
                    = (attempted this (pre ++ [c]) rest
                       ++ attempted this (mid ++ [c2]) post)
                      ++ attempted this post []).
  { rewrite Hsplit, <- app_assoc. f_equal. rewrite Hrest.
    replace (mid ++ c2 :: post) with ((mid ++ [c2]) ++ post)
      by (rewrite <- app_assoc; reflexivity).
    now rewrite attempted_app, app_nil_r. }
  rewrite First.
  rewrite (run_BadOfferPrice mid c2 post); cbn [offers calls badItemPrice].
  - subst rest.
    replace (pre ++ c :: mid ++ [c2]) with ((pre ++ [c]) ++ (mid ++ [c2]))
      by (rewrite <- !app_assoc; reflexivity).
    rewrite (attempted_app (pre ++ [c]) (mid ++ [c2]) post).
    now rewrite <- !app_assoc.
  - exact Hrest.
  - exact Hw2.
  - intros n Hn. apply (classified_prefix _ (attempted this post [])).
    rewrite <- Hsplit2. apply Hs2.
    rewrite length_attempted, length_app in Hn. cbn in Hn. lia.
  - apply (classified_prefix _ (attempted this post [])).
    rewrite <- Hsplit2. rewrite length_attempted, length_app. cbn [List.length].
    exact Hb2.
Qed.

(** C2. With the fix for expired offers enabled, an offer shifted off a
    queue that still holds another one is attempted at
    [max(price, next.price - 1)], its listed price being kept in
    [min_price]; the last offer of a queue is attempted as it is.  The
    attempt price is the price of the purchase call. *)
Theorem price_floor_adjustment :
  hackExpiredOffers (_config this) = true ->
  (forall shifted next rest,
     Offer.price (hackExpired this shifted (next :: rest))
       = Z.max (Offer.price shifted) (Offer.price next - 1) /\
     Offer.min_price (hackExpired this shifted (next :: rest))
       = Some (Offer.price shifted)) /\
  (forall shifted, hackExpired this shifted [] = shifted) /\
  (forall shifted rest,
     Offer.price (hackExpired this shifted rest) <= _getAccountBalance this ->
     exists r st' more,
       buyCheapest sc this (shifted :: rest) td = Some (r, st') /\
       calls st' = (hackExpired this shifted rest,
                    Offer.price (hackExpired this shifted rest)) :: more) /\
  Offer.price (hackExpired this (offer_at 100) [offer_at 150]) = 149 /\
  Offer.price (hackExpired this (offer_at 100) [offer_at 105]) = 104.
Proof.
  intros Hhack. unfold hackExpired. rewrite Hhack.
  repeat split.
  intros shifted rest Hadm.
  destruct (run_first_call (mkRun (shifted :: rest) false []) shifted rest eq_refl)
    as (r & st' & more & E & Hc).
  - unfold hackExpired. rewrite Hhack. exact Hadm.
  - exists r, st', more. split; [exact E|].
    rewrite Hc. cbn. unfold hackExpired. rewrite Hhack. reflexivity.
Qed.

(** C3 (amended). With a known balance [B] and a cheapest offer listed
    above [B], [buyCheapest] fails at once with NeedMoney (source Owner): no
    purchase call is made and the other offers stay in the queue.  The
    context [needMoney] is the attempt price, which is the listed price
    unless the fix for expired offers has raised it. *)
Theorem NeedMoney_before_any_call B shifted rest :
  _wallet this = Some B ->
  B < Offer.price shifted ->
  buyCheapest sc this (shifted :: rest) td
  = Some (Throw (raise (MiddlewareError EErrorType.NeedMoney
                          (Some EErrorSource.Owner)
                          (NeedMoneyData (Offer.price (hackExpired this shifted rest))))),
          mkRun rest false [])
  /\ (hackExpiredOffers (_config this) = false \/ rest = [] ->
      Offer.price (hackExpired this shifted rest) = Offer.price shifted)
  /\ (forall next rest',
        hackExpiredOffers (_config this) = true -> rest = next :: rest' ->
        Offer.price (hackExpired this shifted rest)
        = Z.max (Offer.price shifted) (Offer.price next - 1)).
Proof.
  intros Hw Hlt.
  split; [|split].
  - change (buyCheapest sc this (shifted :: rest) td)
      with (run sc this td (mkRun (shifted :: rest) false [])).
    apply (run_NeedMoney (mkRun (shifted :: rest) false []) shifted rest eq_refl).
    pose proof (hackExpired_ge shifted rest) as Hge.
    unfold _getAccountBalance. rewrite Hw. lia.
  - unfold hackExpired.
    intros [H | H]; [rewrite H|rewrite H]; destruct rest; reflexivity.
  - intros next rest' Hhack ->. unfold hackExpired. rewrite Hhack. reflexivity.
Qed.

(** C5 (amended). When every purchase call is a silent retry,
    [buyCheapest] returns no purchase: it fails, with AttemptsFailed or
    with the NeedMoney of the balance check; and with every attempt within
    the balance the queue is exhausted, one call per offer, and the failure
    is AttemptsFailed (source Market). *)
Theorem all_silent_retries_end_in_AttemptsFailed queue :
  (forall n, classified this td (attempted this queue []) n (Return None)) ->
  (forall data st', buyCheapest sc this queue td <> Some (Return data, st')) /\
  (exists e st',
     buyCheapest sc this queue td = Some (Throw e, st') /\
     (thrown e = AttemptsFailed_error \/
      exists p, thrown e = MiddlewareError EErrorType.NeedMoney
                             (Some EErrorSource.Owner) (NeedMoneyData p))) /\
  (within_balance this (attempted this queue []) ->
   outcome (buyCheapest sc this queue td)
   = Some (Throw AttemptsFailed_error, mkRun [] false (attempted this queue []))).
Proof.
  intros Hs.
  change (buyCheapest sc this queue td)
    with (run sc this td (mkRun queue false [])).
  destruct (all_silent_fails queue (mkRun queue false []) eq_refl Hs)
    as (e & st' & E & He).
  split; [|split].
  - intros data st0. rewrite E. discriminate.
  - eauto.
  - intros Hw.
    rewrite (run_silent_prefix queue [] (mkRun queue false []));
      cbn [offers calls badItemPrice app]; rewrite ?app_nil_r; auto.
Qed.

(** C4. A rejection whose raw message is not in the message table is a
    silent retry: the handler returns [null] and throws nothing, so that
    [_tryToBuy] resolves with [null] and the loop drops the candidate and
    goes on with the rest of the queue. *)
Theorem unknown_message_is_silent_retry m result :
  EMarketMessage.known m = false ->
  (forall uprice,
     classify uprice (Buy.structured (Some m) result) = Return None) /\
  (forall n instance,
     buyV2CreateFor (api this) n instance (Offer.price instance) td
       = Buy.Rejected (Buy.structured (Some m) result) ->
     _tryToBuy this n instance td = Return None) /\
  (forall st shifted rest,
     offers st = shifted :: rest ->
     Offer.price (hackExpired this shifted rest) <= _getAccountBalance this ->
     buyV2CreateFor (api this) (List.length (calls st))
       (hackExpired this shifted rest)
       (Offer.price (hackExpired this shifted rest)) td
       = Buy.Rejected (Buy.structured (Some m) result) ->
     outcome (run sc this td st)
     = outcome (run sc this td
                  (mkRun rest (badItemPrice st)
                     (calls st ++ attempted this [shifted] rest)))).
Proof.
  intros Hk.
  assert (Htry : forall n instance,
    buyV2CreateFor (api this) n instance (Offer.price instance) td
      = Buy.Rejected (Buy.structured (Some m) result) ->
    _tryToBuy this n instance td = Return None).
  { intros n instance E. unfold _tryToBuy. rewrite E.
    now apply classify_unknown. }
  split; [|split].
  - intros uprice. now apply classify_unknown.
  - exact Htry.
  - intros st shifted rest Hq Hadm E.
    rewrite (run_step st shifted rest Hq Hadm), (Htry _ _ E).
    apply outcome_rethrow.
Qed.

End Loop.

(** ** The offer catalogue *)

Section Sorting.
Context {A : Type} (compare : A -> A -> Z).

Lemma In_sort_insert x y l :
  In y (sort_insert compare x l) <-> y = x \/ In y l.
Proof.
  induction l as [|z l IH]; cbn.
  - intuition.
  - destruct (compare x z <=? 0); cbn; [intuition|].
    rewrite IH. intuition.
Qed.

Lemma In_Array_sort y l : In y (Array_sort compare l) <-> In y l.
Proof.
  induction l as [|x l IH]; cbn; [reflexivity|].
  fold (Array_sort compare l). rewrite In_sort_insert, IH. intuition.
Qed.

Lemma length_sort_insert x l :
  List.length (sort_insert compare x l) = S (List.length l).
Proof.
  induction l as [|z l IH]; cbn; [reflexivity|].
  destruct (compare x z <=? 0); cbn; congruence.
Qed.

Lemma length_Array_sort l : List.length (Array_sort compare l) = List.length l.
Proof.
  induction l as [|x l IH]; cbn; [reflexivity|].
  fold (Array_sort compare l). now rewrite length_sort_insert, IH.
Qed.

End Sorting.

Lemma HdRel_sort_insert x y l :
  by_price y x -> HdRel by_price y l ->
  HdRel by_price y (sort_insert price_order x l).
Proof.
  intros Hyx Hl. destruct l as [|z l]; cbn; [now constructor|].
  destruct (price_order x z <=? 0); constructor; auto.
  now inversion Hl.
Qed.

Lemma Sorted_sort_insert x l :
  Sorted by_price l -> Sorted by_price (sort_insert price_order x l).
Proof.
  induction l as [|z l IH]; intros Hs; cbn.
  - repeat constructor.
  - inversion Hs as [|? ? Hl Hz]; subst.
    destruct (price_order x z <=? 0) eqn:E; unfold price_order in E.
    + constructor; [exact Hs|]. constructor. unfold by_price. lia.
    + constructor; [auto|]. apply HdRel_sort_insert; [unfold by_price; lia|exact Hz].
Qed.

Lemma Sorted_Array_sort l : Sorted by_price (Array_sort price_order l).
Proof.
  induction l as [|x l IH]; cbn; [constructor|].
  now apply Sorted_sort_insert.
Qed.

Lemma StronglySorted_Array_sort l :
  StronglySorted by_price (Array_sort price_order l).
Proof.
  apply Sorted_StronglySorted; [|apply Sorted_Array_sort].
  intros a b c. unfold by_price. lia.
Qed.

Lemma prepareOffers_spec mhn allowed items o :
  In o (prepareOffers mhn allowed items) <->
  In o items /\ eligible mhn allowed o = true.
Proof.
  unfold prepareOffers, eligible.
  rewrite In_Array_sort, !filter_In, !andb_true_iff. tauto.
Qed.

Lemma prepareOffers_nil mhn allowed items :
  (forall o, In o items -> eligible mhn allowed o = false) ->
  prepareOffers mhn allowed items = [].
Proof.
  intros H. destruct (prepareOffers mhn allowed items) as [|o l] eqn:E; [reflexivity|].
  assert (Hin : In o (prepareOffers mhn allowed items)) by (rewrite E; now left).
  apply prepareOffers_spec in Hin. destruct Hin as [Hi He].
  rewrite (H o Hi) in He. discriminate.
Qed.

Lemma fold_left_min_le xs : forall x,
  fold_left Z.min xs x <= x /\ Forall (fun p => fold_left Z.min xs x <= p) xs.
Proof.
  induction xs as [|y xs IH]; intros x; cbn; [split; [lia|constructor]|].
  destruct (IH (Z.min x y)) as [H1 H2]. split; [lia|].
  constructor; [lia|exact H2].
Qed.

Lemma fold_left_min_In xs : forall x,
  fold_left Z.min xs x = x \/ In (fold_left Z.min xs x) xs.
Proof.
  induction xs as [|y xs IH]; intros x; cbn; [now left|].
  destruct (IH (Z.min x y)) as [H|H]; [|now right; right].
  rewrite H. destruct (Z.min_spec x y) as [[_ E]|[_ E]]; rewrite E; auto.
Qed.

(** [Math.min] of a list that is not empty is its least element. *)
Lemma Math_min_spec x xs :
  exists m, Math_min (x :: xs) = Some m /\ In m (x :: xs) /\
            forall p, In p (x :: xs) -> m <= p.
Proof.
  exists (fold_left Z.min xs x). split; [reflexivity|].
  destruct (fold_left_min_le xs x) as [H1 H2].
  split.
  - destruct (fold_left_min_In xs x) as [H|H]; [left; now rewrite H|now right].
  - intros p [<-|Hp]; [exact H1|]. rewrite Forall_forall in H2. auto.
Qed.

Lemma prices_extractOffers items :
  map Offer.price (extractOffers items) = map Search.price items.
Proof. unfold extractOffers. rewrite map_map. reflexivity. Qed.

Section Catalogue.
Variable this : MarketLayer.
Variable mhn : string.
Variable maxPrice : option Z.

(** C7. [getItemOffers] fails with RequestFailed (source Market) when the
    lookup is not a success; with NotFound (source Market) when a
    successful lookup brings no candidate; and with TooHighPrices (source
    Owner), carrying the least raw price, when a successful lookup brings
    candidates of which the filters keep none. *)
Theorem getItemOffers_failures :
  let lookup := searchV2ItemByHash (api this) mhn in
  (Search.success lookup = false ->
   getItemOffers this mhn maxPrice
   = Throw (raise (MiddlewareError EErrorType.RequestFailed
                     (Some EErrorSource.Market) NoData))) /\
  (Search.success lookup = true ->
   Search.data lookup = None \/ Search.data lookup = Some [] ->
   getItemOffers this mhn maxPrice
   = Throw (raise (MiddlewareError EErrorType.NotFound
                     (Some EErrorSource.Market) NoData))) /\
  (forall item items,
     Search.success lookup = true ->
     Search.data lookup = Some (item :: items) ->
     (forall o, In o (extractOffers (item :: items)) ->
        eligible mhn (allowedPrice this maxPrice) o = false) ->
     exists lowest,
       getItemOffers this mhn maxPrice
       = Throw (raise (MiddlewareError EErrorType.TooHighPrices
                         (Some EErrorSource.Owner)
                         (LowestPriceData (Some lowest)))) /\
       In lowest (map Search.price (item :: items)) /\
       forall p, In p (map Search.price (item :: items)) -> lowest <= p).
Proof.
  intros lookup. unfold getItemOffers. fold lookup.
  split; [|split].
  - intros ->. reflexivity.
  - intros -> [-> | ->]; reflexivity.
  - intros item items -> -> Hnone. cbn [negb].
    fold (allowedPrice this maxPrice).
    rewrite (prepareOffers_nil _ _ _ Hnone).
    rewrite prices_extractOffers.
    destruct (Math_min_spec (Search.price item) (map Search.price items))
      as (m & Hm & Hin & Hle).
    exists m. cbn [map]. rewrite Hm. auto.
Qed.

(** C6 (amended). The queue that [getItemOffers] returns is sorted by
    ascending price, and each of its offers has the requested hash name and
    a positive number of listings.  Under a ceiling that is supplied and
    not zero each price is at most [preparePrice(ceiling)]; a ceiling of
    zero counts as none. *)
Theorem getItemOffers_queue queue :
  getItemOffers this mhn maxPrice = Return queue ->
  StronglySorted by_price queue /\
  Forall (fun o =>
            Offer.hashName o = mhn /\
            (exists n, Offer.offers o = Some n /\ 0 < n) /\
            (forall ceiling, maxPrice = Some ceiling -> ceiling <> 0 ->
               Offer.price o <= preparePrice (_config this) ceiling))
         queue.
Proof.
  unfold getItemOffers. fold (allowedPrice this maxPrice).
  destruct (Search.success _); cbn [negb]; [|discriminate].
  destruct (Search.data _) as [[|item items]|]; try discriminate.
  destruct (prepareOffers mhn _ _) as [|o l] eqn:E; [discriminate|].
  intros H. inversion H; subst; clear H. rewrite <- E.
  split; [apply StronglySorted_Array_sort|].
  apply Forall_forall. intros x Hx.
  apply prepareOffers_spec in Hx. destruct Hx as [_ He].
  unfold eligible in He. apply andb_true_iff in He. destruct He as [He Hh].
  apply andb_true_iff in He. destruct He as [Hp Ho].
  split; [now apply String.eqb_eq|]. split.
  - unfold positive in Ho. destruct (Offer.offers x) as [n|]; [|discriminate].
    exists n. split; [reflexivity|]. now apply Z.ltb_lt.
  - intros ceiling -> Hc. apply Z.leb_le in Hp.
    unfold allowedPrice, js_or in Hp.
    destruct (ceiling =? 0) eqn:Ez; [apply Z.eqb_eq in Ez; contradiction|exact Hp].
Qed.

End Catalogue.

(** ** History reconciliation *)

Section Reconciler.
Variable tz : Z -> Z.
Variable now : nat -> Z.
Variable buyV2 : string.
Variable has : Z -> bool.
Variable this : MarketLayer.
Variable marketId : Z.
Variable t : Z.

Lemma getItem_window margin log :
  getItem tz now buyV2 this marketId (Some t) margin log
  = let T := centre tz this t in
    (item_of buyV2 marketId
       (accountV2GetHistory (api this) (List.length log) (T - margin) (T + margin)),
     log ++ [(T - margin, T + margin)]).
Proof.
  unfold getItem, getBoughtItems, item_of, buyEvent_in, centre.
  destruct (handleTimezone (_config this)); cbn [prop_of bind fst snd];
    (destruct (accountV2GetHistory _ _ _ _) as [h|c]; [|reflexivity]);
    (destruct (History.success h); [|reflexivity]);
    (destruct (History.data h) as [events|]; [|reflexivity]);
    (destruct (filter _ events) as [|ev l]; [reflexivity|]);
    cbn [List.length Nat.eqb]; destruct (extractItem _ _); reflexivity.
Qed.

Lemma item_of_found events :
  item_of buyV2 marketId (found events)
  = match buyEvent_in buyV2 marketId events with
    | Some ev => Return ev
    | None =>
        Throw (Object (raise (MiddlewareError EErrorType.NotFound None NoData)))
    end.
Proof. reflexivity. Qed.

(** C8 (amended). [getItemState] first asks for the history within 45
    seconds of the instant [T], which is the approximate timestamp, moved
    by the local timezone offset when [handleTimezone] is set.  When the
    answer holds the buy event of the item, that is the only request.
    When the answer is a success without that event, exactly one more
    request is made, within 5 minutes of [T]: an event found there gives
    the result (its stage, or UnknownStage), and an event missing there too
    gives NotFound with the item id attached. *)
Theorem getItemState_two_phases :
  let T := centre tz this t in
  let first := accountV2GetHistory (api this) 0 (T - 45000) (T + 45000) in
  let second := accountV2GetHistory (api this) 1 (T - 300000) (T + 300000) in
  let answer := getItemState tz now buyV2 has this marketId (Some t) in
  (exists more, snd answer = (T - 45000, T + 45000) :: more) /\
  (forall events ev,
     first = found events ->
     buyEvent_in buyV2 marketId events = Some ev ->
     answer = (stage_of has ev, [(T - 45000, T + 45000)])) /\
  (forall events,
     first = found events ->
     buyEvent_in buyV2 marketId events = None ->
     snd answer = [(T - 45000, T + 45000); (T - 300000, T + 300000)] /\
     (forall later ev,
        second = found later ->
        buyEvent_in buyV2 marketId later = Some ev ->
        fst answer = stage_of has ev) /\
     (forall later,
        second = found later ->
        buyEvent_in buyV2 marketId later = None ->
        fst answer = Throw (NotFound_for marketId))).
Proof.
  intros T first second answer.
  unfold answer, getItemState, makeRequests.
  rewrite getItem_window. cbn zeta. cbn [List.length app].
  change (initialMargin) with 45000. fold T. fold first.
  split; [|split].
  - destruct (item_of buyV2 marketId first) as [ev|c].
    + destruct (negb _); cbn; eauto.
    + destruct (type_is EErrorType.NotFound c) as [[|]|raised];
        [|cbn; eauto..].
      rewrite getItem_window. cbn zeta.
      destruct (item_of _ _ _); [destruct (negb _)|]; cbn; eauto.
  - intros events ev -> Hev. rewrite item_of_found, Hev.
    unfold stage_of. destruct (has _); reflexivity.
  - intros events -> Hev. rewrite item_of_found, Hev.
    cbn [type_is has_type raise thrown EErrorType.eqb].
    rewrite getItem_window. cbn zeta. cbn [List.length app].
    change (extendedMargin) with 300000. fold T. fold second.
    split; [|split].
    + destruct (item_of buyV2 marketId second); [destruct (negb _)|];
        reflexivity.
    + intros later ev -> Hl. rewrite item_of_found, Hl.
      unfold stage_of. destruct (has _); reflexivity.
    + intros later -> Hl. rewrite item_of_found, Hl. reflexivity.
Qed.

End Reconciler.

(* ================================================================== *)
(** ** Evaluations on concrete inputs *)

Lemma classify_without_response uprice :
  classify uprice Buy.plain_Error = Throw (raise TypeError).
Proof. reflexivity. Qed.

Lemma _tryToBuy_unsuccessful this n instance td response :
  buyV2CreateFor (api this) n instance (Offer.price instance) td
    = Buy.Resolved response ->
  Buy.success response = false ->
  _tryToBuy this n instance td = Throw (raise TypeError).
Proof.
  intros E Hs. unfold _tryToBuy, bought. rewrite E, Hs. reflexivity.
Qed.

Lemma bought_offerPrice this instance uprice response data :
  bought this instance uprice response = inr data ->
  Purchase.offerPrice data = Offer.min_price instance.
Proof.
  unfold bought. destruct (negb _); [discriminate|].
  intros H. inversion H. reflexivity.
Qed.

(** C9. Evaluation of a purchase of the last offer of a queue, listed at
    100: the result has the offer's [classId] and [instanceId] and the
    price 100, and its [offerPrice] is [undefined], with the fix for
    expired offers enabled or not; [offerPrice] holds the listed price only
    for an offer whose price the fix has raised. *)
Theorem last_offer_purchase_has_no_offerPrice :
  buyCheapest no_statusCode always_sells [offer_at 100] None
  = Some (Return (Purchase.mk 7 "310776560" "0" 100 None),
          mkRun [] false [(offer_at 100, 100)])
  /\
  buyCheapest no_statusCode (buyer false None (fun _ => sold))
    [offer_at 100; offer_at 150] None
  = Some (Return (Purchase.mk 7 "310776560" "0" 100 None),
          mkRun [offer_at 150] false [(offer_at 100, 100)])
  /\
  buyCheapest no_statusCode always_sells [offer_at 100; offer_at 150] None
  = Some (Return (Purchase.mk 7 "310776560" "0" 100 (Some 100)),
          mkRun [offer_at 150] false
            [(Offer.set_price 149 (Offer.set_min_price 100 (offer_at 100)), 149)]).
Proof. split; [|split]; vm_compute; reflexivity. Qed.

(** C10. Evaluation of a purchase attempt whose call resolves without
    success, and of one whose call rejects without a response: in both the
    handler reads [error.response.body] of an error that has no [response],
    and the attempt throws a [TypeError], which is not a [MiddlewareError]
    and which [buyCheapest] passes on to its caller. *)
Theorem purchase_attempt_throws_TypeError :
  _tryToBuy (buyer true None (fun _ => unsold)) 0 (offer_at 100) None
  = Throw (raise TypeError)
  /\
  _tryToBuy (buyer true None (fun _ => Buy.Rejected Buy.plain_Error)) 0
    (offer_at 100) None
  = Throw (raise TypeError)
  /\
  buyCheapest no_statusCode (buyer true None (fun _ => unsold))
    [offer_at 100; offer_at 150] None
  = Some (Throw (raise TypeError),
          mkRun [offer_at 150] false
            [(Offer.set_price 149 (Offer.set_min_price 100 (offer_at 100)), 149)]).
Proof. split; [|split]; vm_compute; reflexivity. Qed.

(* ================================================================== *)
(** ** The theorems at concrete inputs *)

Lemma BadOfferPrice_retried_once_witness :
  outcome (buyCheapest no_statusCode twice_BadOfferPrice
             [offer_at 100; offer_at 150; offer_at 170; offer_at 200; offer_at 250]
             None)
  = Some (Throw BadOfferPrice_error,
          mkRun [offer_at 250] true
            (attempted twice_BadOfferPrice
               [offer_at 100; offer_at 150; offer_at 170; offer_at 200]
               [offer_at 250])).
Proof.
  destruct (BadOfferPrice_retried_once no_statusCode twice_BadOfferPrice None
              [offer_at 100] (offer_at 150)
              [offer_at 170; offer_at 200; offer_at 250]) as [_ H].
  - repeat constructor; vm_compute; discriminate.
  - intros [|n] Hn; [|cbn in Hn; lia]. intros a _. reflexivity.
  - intros a _. reflexivity.
  - apply (H [offer_at 170] (offer_at 200) [offer_at 250]).
    + reflexivity.
    + repeat constructor; vm_compute; discriminate.
    + intros [|[|[|n]]] Hn; cbn in Hn; try lia. intros a _. reflexivity.
    + intros a _. reflexivity.
Defined.

Lemma price_floor_adjustment_witness :
  hackExpiredOffers (_config always_sells) = true /\
  Offer.price (hackExpired always_sells (offer_at 100) [offer_at 150]) = 149 /\
  Offer.price (hackExpired always_sells (offer_at 100) [offer_at 105]) = 104.
Proof.
  split; [reflexivity|].
  destruct (price_floor_adjustment no_statusCode always_sells None eq_refl)
    as (_ & _ & _ & H).
  exact H.
Defined.

Lemma NeedMoney_before_any_call_witness :
  _wallet poor = Some 50 /\ 50 < Offer.price (offer_at 100) /\
  buyCheapest no_statusCode poor [offer_at 100; offer_at 150] None
  = Some (Throw (raise (MiddlewareError EErrorType.NeedMoney
                          (Some EErrorSource.Owner) (NeedMoneyData 149))),
          mkRun [offer_at 150] false []).
Proof.
  split; [reflexivity|]. split; [reflexivity|].
  destruct (NeedMoney_before_any_call no_statusCode poor None 50
              (offer_at 100) [offer_at 150] eq_refl eq_refl) as (H & _).
  exact H.
Defined.

Lemma unknown_message_is_silent_retry_witness :
  EMarketMessage.known unheard_of = false /\
  classify 100 (Buy.structured (Some unheard_of) None) = Return None.
Proof.
  split; [reflexivity|].
  destruct (unknown_message_is_silent_retry no_statusCode never_sells None
              unheard_of None eq_refl) as (H & _).
  apply H.
Defined.

Lemma all_silent_retries_end_in_AttemptsFailed_witness :
  outcome (buyCheapest no_statusCode never_sells
             [offer_at 100; offer_at 150; offer_at 170] None)
  = Some (Throw AttemptsFailed_error,
          mkRun [] false
            (attempted never_sells [offer_at 100; offer_at 150; offer_at 170] [])).
Proof.
  destruct (all_silent_retries_end_in_AttemptsFailed no_statusCode never_sells
              None [offer_at 100; offer_at 150; offer_at 170]) as (_ & _ & H).
  - intros n a _. reflexivity.
  - apply H. repeat constructor; vm_compute; discriminate.
Defined.

Lemma getItemOffers_queue_witness :
  getItemOffers four_listings item_name (Some 120)
  = Return [ Offer.mk item_name "0" "310776560" 100 (Some 1) None;
             Offer.mk item_name "0" "310776560" 110 (Some 2) None ] /\
  StronglySorted by_price
    [ Offer.mk item_name "0" "310776560" 100 (Some 1) None;
      Offer.mk item_name "0" "310776560" 110 (Some 2) None ].
Proof.
  split; [reflexivity|].
  destruct (getItemOffers_queue four_listings item_name (Some 120) _ eq_refl)
    as (H & _).
  exact H.
Defined.

Lemma getItemOffers_failures_witness :
  getItemOffers (shopper no_search) item_name None
  = Throw (raise (MiddlewareError EErrorType.RequestFailed
                    (Some EErrorSource.Market) NoData)) /\
  getItemOffers (shopper (listings [])) item_name None
  = Throw (raise (MiddlewareError EErrorType.NotFound
                    (Some EErrorSource.Market) NoData)) /\
  exists lowest,
    getItemOffers dear_listings item_name (Some 120)
    = Throw (raise (MiddlewareError EErrorType.TooHighPrices
                      (Some EErrorSource.Owner)
                      (LowestPriceData (Some lowest)))) /\
    In lowest [130; 125] /\
    forall p, In p [130; 125] -> lowest <= p.
Proof.
  split; [|split].
  - apply (getItemOffers_failures (shopper no_search) item_name None).
    reflexivity.
  - pose proof (getItemOffers_failures (shopper (listings [])) item_name None)
      as H.
    cbv zeta in H. destruct H as (_ & H & _).
    apply H; [reflexivity|right; reflexivity].
  - pose proof (getItemOffers_failures dear_listings item_name (Some 120)) as H.
    cbv zeta in H. destruct H as (_ & _ & H).
    apply (H (listing item_name 130 1) [listing item_name 125 3]).
    + reflexivity.
    + reflexivity.
    + intros o [<-|[<-|[]]]; reflexivity.
Defined.

Lemma getItemState_two_phases_witness :
  getItemState Greenwich epoch buy_v2 known_stage late_entry 42
    (Some purchase_time)
  = (Return 2,
     [ (purchase_time - 45000, purchase_time + 45000);
       (purchase_time - 300000, purchase_time + 300000) ]).
Proof.
  pose proof (getItemState_two_phases Greenwich epoch buy_v2 known_stage
                late_entry 42 purchase_time) as H.
  cbv zeta in H. destruct H as (_ & _ & H).
  destruct (H [] eq_refl eq_refl) as (Hlog & Hfound & _).
  rewrite (surjective_pairing (getItemState _ _ _ _ _ _ _)).
  rewrite Hlog, (Hfound [bought_at 42 2] (bought_at 42 2) eq_refl eq_refl).
  reflexivity.
Defined.

(* ================================================================== *)
(** ** Inputs at which a statement of the specification fails *)

(** C3 as stated: with the balance 50 and the queue [100; 150], the context
    of the NeedMoney failure is not the listed price 100 (it is 149). *)
Lemma NeedMoney_context_is_the_attempt_price :
  ~ exists st',
      buyCheapest no_statusCode poor [offer_at 100; offer_at 150] None
      = Some (Throw (raise (MiddlewareError EErrorType.NeedMoney
                              (Some EErrorSource.Owner)
                              (NeedMoneyData (Offer.price (offer_at 100))))),
              st').
Proof. intros [st' H]. vm_compute in H. discriminate H. Qed.

(** C5 as stated: with the balance 169 and the queue [100; 150; 170],
    every purchase call is a silent retry, and the run ends after two calls
    with NeedMoney for the last offer, not with AttemptsFailed. *)
Lemma silent_retries_end_in_NeedMoney :
  (forall n,
     classified short_of_the_last None
       (attempted short_of_the_last
          [offer_at 100; offer_at 150; offer_at 170] []) n (Return None)) /\
  outcome (buyCheapest no_statusCode short_of_the_last
             [offer_at 100; offer_at 150; offer_at 170] None)
  = Some (Throw (MiddlewareError EErrorType.NeedMoney
                   (Some EErrorSource.Owner) (NeedMoneyData 170)),
          mkRun [] false
            (attempted short_of_the_last [offer_at 100; offer_at 150]
               [offer_at 170])).
Proof.
  split; [intros n a _; reflexivity|]. vm_compute. reflexivity.
Qed.

(** C6 as stated: under the ceiling 0 the returned queue holds an offer
    priced 5. *)
Lemma zero_ceiling_is_no_ceiling :
  exists o queue,
    getItemOffers one_listing item_name (Some 0) = Return queue /\
    In o queue /\ ~ Offer.price o <= 0.
Proof.
  eexists _, _. split; [reflexivity|]. split; [left; reflexivity|].
  vm_compute. intros H. apply H. reflexivity.
Qed.

(** C8 as stated: with [handleTimezone] set and a local offset of -180
    minutes, the first request is not for the 45 seconds around the
    approximate timestamp. *)
Lemma window_is_moved_by_the_timezone :
  ~ exists more,
      snd (getItemState Moscow epoch buy_v2 known_stage
             (auditor true (ledger [])) 42 (Some purchase_time))
      = (purchase_time - 45000, purchase_time + 45000) :: more.
Proof. intros [more H]. vm_compute in H. discriminate H. Qed.

(* ================================================================== *)
(** * Further properties *)

(** ** What [_tryToBuy] can settle as *)

(** The settlements of the rejection handler: [null], the [TypeError] of an
    error without a structured body, or one of nine errors, each with its
    source. *)
Lemma classify_cases uprice error :
  In (classify uprice error)
     (Return None :: Throw (raise TypeError) :: fatal_settlements uprice).
Proof.
  unfold classify, fatal_settlements, fatal.
  destruct error as [response].
  destruct response as [[body]|]; [|cbn; tauto].
  destruct body as [[response]|]; [|cbn; tauto].
  destruct response as [[raw result]|]; [|cbn; tauto].
  cbn [bind prop_of Buy.response Buy.body Buy.body_error Buy.error].
  generalize (EMarketMessage.get_computed (EMarketMessage.hash (of_field raw))).
  intros message.
  repeat match goal with
         | |- context [if ?c then _ else _] => destruct c
         end;
    cbn; tauto.
Qed.

Lemma classify_structured uprice message result :
  classify uprice (Buy.structured message result) <> Throw (raise TypeError).
Proof.
  unfold classify, Buy.structured.
  cbn [bind prop_of Buy.response Buy.body Buy.body_error Buy.error].
  generalize (EMarketMessage.get_computed (EMarketMessage.hash (of_field message))).
  intros m.
  repeat match goal with
         | |- context [if ?c then _ else _] => destruct c
         end;
    discriminate.
Qed.

Lemma bought_inr this instance uprice response data :
  bought this instance uprice response = inr data ->
  Buy.success response = true /\
  data = Purchase.mk (Buy.id response) (Offer.classId instance)
           (Offer.instanceId instance)
           (_applyDiscount this (js_or id (Offer.min_price instance) uprice))
           (Offer.min_price instance).
Proof.
  unfold bought. destruct (Buy.success response); cbn [negb]; [|discriminate].
  intros H. inversion H. auto.
Qed.

Lemma _tryToBuy_Some this n instance td data :
  _tryToBuy this n instance td = Return (Some data) ->
  exists response,
    buyV2CreateFor (api this) n instance (Offer.price instance) td
      = Buy.Resolved response /\
    bought this instance (Offer.price instance) response = inr data.
Proof.
  unfold _tryToBuy.
  assert (Hc : forall error,
            classify (Offer.price instance) error <> Return (Some data)).
  { intros error H. pose proof (classify_cases (Offer.price instance) error) as Hin.
    rewrite H in Hin. cbn in Hin. unfold fatal in Hin.
    repeat (destruct Hin as [Hin|Hin]; [discriminate|]). exact Hin. }
  destruct (buyV2CreateFor _ _ _ _ _) as [response|error].
  - destruct (bought this instance _ response) as [error|data'] eqn:E.
    + intros H. now apply Hc in H.
    + intros H. inversion H; subst. eauto.
  - intros H. now apply Hc in H.
Qed.

(** X1. [_tryToBuy] throws nothing but a [TypeError] or one of the nine
    errors of its rejection handler, each with the source the handler gives
    it and with no property attached; its NeedMoney error carries the price
    of the attempt.  A purchase is returned only for a call that resolved
    with [success].  A rejection with a structured error body gives neither
    a [TypeError] nor a purchase. *)
Theorem _tryToBuy_settlements this n instance td :
  (forall e,
     _tryToBuy this n instance td = Throw e ->
     e = raise TypeError \/
     In (Throw e) (fatal_settlements (Offer.price instance))) /\
  (forall data,
     _tryToBuy this n instance td = Return (Some data) ->
     exists response,
       buyV2CreateFor (api this) n instance (Offer.price instance) td
         = Buy.Resolved response /\
       Buy.success response = true) /\
  (forall message result,
     buyV2CreateFor (api this) n instance (Offer.price instance) td
       = Buy.Rejected (Buy.structured message result) ->
     _tryToBuy this n instance td <> Throw (raise TypeError) /\
     forall data, _tryToBuy this n instance td <> Return (Some data)).
Proof.
  split; [|split].
  - intros e H.
    assert (Hc : forall error,
              classify (Offer.price instance) error = Throw e ->
              e = raise TypeError \/
              In (Throw e) (fatal_settlements (Offer.price instance))).
    { intros error Hx.
      pose proof (classify_cases (Offer.price instance) error) as Hin.
      rewrite Hx in Hin. destruct Hin as [Hin|[Hin|Hin]].
      - discriminate.
      - left. now inversion Hin.
      - now right. }
    unfold _tryToBuy in H.
    destruct (buyV2CreateFor _ _ _ _ _) as [response|error]; [|eauto].
    destruct (bought this instance _ response); [eauto|discriminate].
  - intros data H. apply _tryToBuy_Some in H. destruct H as (response & E & Hb).
    apply bought_inr in Hb. exists response. tauto.
  - intros message result E. unfold _tryToBuy. rewrite E. split.
    + apply classify_structured.
    + intros data H.
      pose proof (classify_cases (Offer.price instance)
                    (Buy.structured message result)) as Hin.
      rewrite H in Hin. cbn in Hin. unfold fatal in Hin.
      repeat (destruct Hin as [Hin|Hin]; [discriminate|]). exact Hin.
Qed.

(** ** What one invocation of [buyCheapest] has done when it settles *)

Section Traces.

Variable sc : EErrorType.t -> option Z.
Variable this : MarketLayer.
Variable td : option TradeData.

Lemma attempted_cons shifted pre rest :
  attempted this (shifted :: pre) rest
  = attempted this [shifted] (pre ++ rest) ++ attempted this pre rest.
Proof. reflexivity. Qed.

(** The calls made are those for a prefix of the queue, in its order; what
    is left of the queue is the rest of it, less the one offer that the
    balance check has turned down, if it did. *)
Lemma run_trace : forall queue st r st',
  offers st = queue ->
  run sc this td st = Some (r, st') ->
  exists pre rest,
    queue = pre ++ rest /\
    calls st' = calls st ++ attempted this pre rest /\
    (offers st' = rest \/
     exists c, rest = c :: offers st' /\
               _getAccountBalance this
               < Offer.price (hackExpired this c (offers st'))).
Proof.
  induction queue as [|shifted rest0 IH]; intros st r st' Hq H.
  - rewrite (run_empty sc this td st Hq) in H. inversion H; subst.
    exists [], []. cbn. rewrite app_nil_r. auto.
  - destruct (Z.le_gt_cases (Offer.price (hackExpired this shifted rest0))
                (_getAccountBalance this)) as [Hle|Hgt].
    + assert (Hcont : forall st2 r2,
                offers st2 = rest0 ->
                calls st2 = calls st ++ attempted this [shifted] rest0 ->
                run sc this td st2 = Some (r2, st') ->
                exists pre rest,
                  shifted :: rest0 = pre ++ rest /\
                  calls st' = calls st ++ attempted this pre rest /\
                  (offers st' = rest \/
                   exists c, rest = c :: offers st' /\
                             _getAccountBalance this
                             < Offer.price (hackExpired this c (offers st')))).
      { intros st2 r2 Hq2 Hc2 H2.
        destruct (IH st2 r2 st' Hq2 H2) as (pre & rest & E & Hc & Hrest).
        exists (shifted :: pre), rest. split; [cbn; congruence|]. split; [|exact Hrest].
        rewrite Hc, Hc2, (attempted_cons shifted pre rest), <- E, app_assoc.
        reflexivity. }
      assert (Hhere : exists pre rest,
                shifted :: rest0 = pre ++ rest /\
                calls st ++ attempted this [shifted] rest0
                = calls st ++ attempted this pre rest /\
                (rest0 = rest \/
                 exists c, rest = c :: rest0 /\
                           _getAccountBalance this
                           < Offer.price (hackExpired this c rest0))).
      { exists [shifted], rest0. auto. }
      rewrite (run_step sc this td st shifted rest0 Hq Hle) in H.
      destruct (_tryToBuy _ _ _ _) as [[data|]|err].
      * inversion H; subst. exact Hhere.
      * destruct (run sc this td (mkRun rest0 _ _)) as [[[d|e] st3]|] eqn:E;
          cbn [rethrow] in H; inversion H; subst;
          refine (Hcont _ _ _ _ E); reflexivity.
      * destruct (_ && _).
        -- refine (Hcont _ _ _ _ H); reflexivity.
        -- inversion H; subst. exact Hhere.
    + rewrite (run_NeedMoney sc this td st shifted rest0 Hq Hgt) in H.
      inversion H; subst. exists [], (shifted :: rest0). cbn.
      rewrite app_nil_r. split; [reflexivity|]. split; [reflexivity|].
      right. exists shifted. auto.
Qed.

(** A purchase is the answer to the last call made. *)
Lemma run_purchase : forall queue st data st',
  offers st = queue ->
  run sc this td st = Some (Return data, st') ->
  exists pre c response,
    queue = pre ++ c :: offers st' /\
    calls st' = calls st ++ attempted this (pre ++ [c]) (offers st') /\
    buyV2CreateFor (api this) (List.length (calls st) + List.length pre)
      (hackExpired this c (offers st'))
      (Offer.price (hackExpired this c (offers st'))) td
      = Buy.Resolved response /\
    bought this (hackExpired this c (offers st'))
      (Offer.price (hackExpired this c (offers st'))) response = inr data.
Proof.
  induction queue as [|shifted rest0 IH]; intros st data st' Hq H.
  - rewrite (run_empty sc this td st Hq) in H. discriminate.
  - destruct (Z.le_gt_cases (Offer.price (hackExpired this shifted rest0))
                (_getAccountBalance this)) as [Hle|Hgt].
    + assert (Hcont : forall st2,
                offers st2 = rest0 ->
                calls st2 = calls st ++ attempted this [shifted] rest0 ->
                run sc this td st2 = Some (Return data, st') ->
                exists pre c response,
                  shifted :: rest0 = pre ++ c :: offers st' /\
                  calls st' = calls st ++ attempted this (pre ++ [c]) (offers st') /\
                  buyV2CreateFor (api this)
                    (List.length (calls st) + List.length pre)
                    (hackExpired this c (offers st'))
                    (Offer.price (hackExpired this c (offers st'))) td
                    = Buy.Resolved response /\
                  bought this (hackExpired this c (offers st'))
                    (Offer.price (hackExpired this c (offers st'))) response
                    = inr data).
      { intros st2 Hq2 Hc2 H2.
        destruct (IH st2 data st' Hq2 H2) as (pre & c & response & E & Hc & Ha & Hb).
        exists (shifted :: pre), c, response. split; [cbn; congruence|].
        split; [|split; [|exact Hb]].
        - cbn [app]. rewrite Hc, Hc2, (attempted_cons shifted (pre ++ [c]) (offers st')).
          replace ((pre ++ [c]) ++ offers st') with rest0
            by (rewrite <- app_assoc; exact E).
          now rewrite app_assoc.
        - rewrite <- Ha. f_equal. rewrite Hc2, length_app. cbn. lia. }
      rewrite (run_step sc this td st shifted rest0 Hq Hle) in H.
      destruct (_tryToBuy _ _ _ _) as [[data'|]|err] eqn:Etry.
      * inversion H; subst. cbn [offers calls].
        apply _tryToBuy_Some in Etry. destruct Etry as (response & Ea & Eb).
        exists [], shifted, response. cbn [app List.length].
        rewrite Nat.add_0_r. auto.
      * destruct (run sc this td (mkRun rest0 _ _)) as [[[d|e] st3]|] eqn:E;
          cbn [rethrow] in H; inversion H; subst.
        refine (Hcont _ _ _ E); reflexivity.
      * destruct (_ && _); [|discriminate].
        refine (Hcont _ _ _ H); reflexivity.
    + rewrite (run_NeedMoney sc this td st shifted rest0 Hq Hgt) in H.
      discriminate.
Qed.

(** A BadOfferPrice error ends an invocation that had the flag set from the
    start, after one call at least, or one that has made two calls at
    least. *)
Lemma run_BadOfferPrice_calls : forall queue st e st',
  offers st = queue ->
  run sc this td st = Some (Throw e, st') ->
  is_middleware_of EErrorType.BadOfferPrice e = true ->
  (badItemPrice st = true /\
   (S (List.length (calls st)) <= List.length (calls st'))%nat) \/
  (2 + List.length (calls st) <= List.length (calls st'))%nat.
Proof.
  induction queue as [|shifted rest0 IH]; intros st e st' Hq H Hb.
  - rewrite (run_empty sc this td st Hq) in H. inversion H; subst. discriminate.
  - destruct (Z.le_gt_cases (Offer.price (hackExpired this shifted rest0))
                (_getAccountBalance this)) as [Hle|Hgt].
    + assert (Hcont : forall st2 e2,
                offers st2 = rest0 ->
                calls st2 = calls st ++ attempted this [shifted] rest0 ->
                run sc this td st2 = Some (Throw e2, st') ->
                is_middleware_of EErrorType.BadOfferPrice e2 = true ->
                (2 + List.length (calls st) <= List.length (calls st'))%nat).
      { intros st2 e2 Hq2 Hc2 H2 Hb2.
        destruct (IH st2 e2 st' Hq2 H2 Hb2) as [[_ Hl]|Hl];
          rewrite Hc2, length_app in Hl; cbn in Hl; lia. }
      rewrite (run_step sc this td st shifted rest0 Hq Hle) in H.
      destruct (_tryToBuy _ _ _ _) as [[data'|]|err] eqn:Etry.
      * discriminate.
      * destruct (run sc this td (mkRun rest0 _ _)) as [[[d|e3] st3]|] eqn:E;
          cbn [rethrow] in H; inversion H; subst.
        right. rewrite is_middleware_of_attach in Hb.
        refine (Hcont _ _ _ _ E Hb); reflexivity.
      * destruct (is_middleware_of EErrorType.BadOfferPrice err) eqn:Eb;
          destruct (badItemPrice st) eqn:Ef; cbn [andb negb] in H.
        -- inversion H; subst. left. split; [reflexivity|].
           cbn. rewrite length_app. cbn. lia.
        -- right. refine (Hcont _ _ _ _ H Hb); reflexivity.
        -- inversion H; subst. rewrite is_middleware_of_attach in Hb. congruence.
        -- inversion H; subst. rewrite is_middleware_of_attach in Hb. congruence.
    + rewrite (run_NeedMoney sc this td st shifted rest0 Hq Hgt) in H.
      inversion H; subst. discriminate.
Qed.

End Traces.

(** ** Invocations of [buyCheapest] and [buyItem] *)

Section Invocations.

Variable sc : EErrorType.t -> option Z.
Variable this : MarketLayer.
Variable td : option TradeData.

Lemma hackExpired_ids shifted rest :
  Offer.classId (hackExpired this shifted rest) = Offer.classId shifted /\
  Offer.instanceId (hackExpired this shifted rest) = Offer.instanceId shifted /\
  Offer.hashName (hackExpired this shifted rest) = Offer.hashName shifted.
Proof.
  unfold hackExpired. destruct rest; [auto|].
  destruct (hackExpiredOffers _); auto.
Qed.

(** The price that a purchase reports is worked out from the listed price
    of the offer, raised or not, unless that price is 0. *)
Lemma hackExpired_listed shifted rest :
  Offer.min_price shifted = None ->
  (Offer.price shifted <> 0 ->
   js_or id (Offer.min_price (hackExpired this shifted rest))
         (Offer.price (hackExpired this shifted rest))
   = Offer.price shifted) /\
  (Offer.min_price (hackExpired this shifted rest) = None \/
   Offer.min_price (hackExpired this shifted rest) = Some (Offer.price shifted)).
Proof.
  intros Hmin. unfold hackExpired. destruct rest as [|next rest].
  - rewrite Hmin. cbn. auto.
  - destruct (hackExpiredOffers _).
    + cbn. split; [|auto]. intros Hp.
      destruct (Z.eqb_spec (Offer.price shifted) 0); [contradiction|reflexivity].
    + rewrite Hmin. cbn. auto.
Qed.

Lemma hackExpired_le B shifted rest :
  Offer.price shifted <= B ->
  Forall (fun o => Offer.price o <= B) rest ->
  Offer.price (hackExpired this shifted rest) <= B.
Proof.
  intros Hs Hr. unfold hackExpired. destruct rest as [|next rest]; [exact Hs|].
  inversion Hr; subst. destruct (hackExpiredOffers _); cbn; lia.
Qed.

Lemma attempted_le B pre rest :
  Forall (fun o => Offer.price o <= B) (pre ++ rest) ->
  Forall (fun a => snd a <= B) (attempted this pre rest).
Proof.
  induction pre as [|shifted pre IH]; intros H; cbn; [constructor|].
  cbn in H. inversion H; subst. constructor; [|auto].
  cbn. now apply hackExpired_le.
Qed.

(** X2. Whatever the provider answers, when [buyCheapest] settles it has
    made its purchase calls for the first offers of the queue, one call for
    each and in the order of the queue, each at the attempt price of its
    offer; the offers it leaves in the queue are the last ones, untouched,
    after at most one offer that was shifted off without a call. *)
Theorem buyCheapest_calls_in_queue_order queue r st' :
  buyCheapest sc this queue td = Some (r, st') ->
  exists pre rest,
    queue = pre ++ rest /\
    calls st' = attempted this pre rest /\
    (offers st' = rest \/ exists c, rest = c :: offers st') /\
    (List.length (calls st') <= List.length queue)%nat.
Proof.
  intros H.
  destruct (run_trace sc this td queue (mkRun queue false []) r st' eq_refl H)
    as (pre & rest & E & Hc & Hrest).
  exists pre, rest. cbn in Hc. repeat split; auto.
  - destruct Hrest as [Hr|(c & Hr & _)]; eauto.
  - rewrite Hc, length_attempted, E, length_app. lia.
Qed.

(** X3. A purchase that [buyCheapest] returns is the answer to its last
    call: the provider resolved that call with [success], the purchase has
    the [id] of the answer and the [classId] and [instanceId] of the offer
    called for, and the offers after that one are left in the queue.  For an
    offer that came without [min_price] and with a price that is not 0, the
    price reported is the discounted listed price, not the raised price of
    the attempt, and [offerPrice] is the listed price or missing. *)
Theorem buyCheapest_purchase queue data st' :
  buyCheapest sc this queue td = Some (Return data, st') ->
  exists pre c response,
    queue = pre ++ c :: offers st' /\
    List.length (calls st') = S (List.length pre) /\
    buyV2CreateFor (api this) (List.length pre)
      (hackExpired this c (offers st'))
      (Offer.price (hackExpired this c (offers st'))) td
      = Buy.Resolved response /\
    Buy.success response = true /\
    Purchase.uiId data = Buy.id response /\
    Purchase.classId data = Offer.classId c /\
    Purchase.instanceId data = Offer.instanceId c /\
    (Offer.min_price c = None ->
     (Offer.price c <> 0 ->
      Purchase.price data = _applyDiscount this (Offer.price c)) /\
     (Purchase.offerPrice data = None \/
      Purchase.offerPrice data = Some (Offer.price c))).
Proof.
  intros H.
  destruct (run_purchase sc this td queue (mkRun queue false []) data st'
              eq_refl H) as (pre & c & response & E & Hc & Ha & Hb).
  cbn [calls List.length Nat.add app] in Hc, Ha.
  apply bought_inr in Hb. destruct Hb as [Hs ->].
  destruct (hackExpired_ids c (offers st')) as (Hcl & Hin & _).
  exists pre, c, response. cbn [Purchase.uiId Purchase.classId
    Purchase.instanceId Purchase.price Purchase.offerPrice].
  split; [exact E|]. split.
  { rewrite Hc, length_attempted, length_app. cbn. lia. }
  do 5 (split; [auto|]).
  intros Hmin. destruct (hackExpired_listed c (offers st') Hmin) as [Hl Ho].
  split; [|exact Ho]. intros Hp. now rewrite (Hl Hp).
Qed.

(** X4. [buyCheapest] never fails with BadOfferPrice on its first purchase
    call: when it does fail with it, two calls at least have been made and
    the flag is set. *)
Theorem BadOfferPrice_takes_two_calls queue e st' :
  buyCheapest sc this queue td = Some (Throw e, st') ->
  is_middleware_of EErrorType.BadOfferPrice e = true ->
  (2 <= List.length (calls st'))%nat /\ badItemPrice st' = true.
Proof.
  intros H Hb. split.
  - destruct (run_BadOfferPrice_calls sc this td queue (mkRun queue false [])
                e st' eq_refl H Hb) as [[Hf _]|Hl]; [discriminate|exact Hl].
  - exact (buyAttempt_keeps_BadOfferPrice sc this td _ _ _ _ H Hb).
Qed.

(** X5. With no balance set, the balance check turns no offer down: for a
    queue of prices up to [Number.MAX_VALUE], every offer that has left the
    queue when [buyCheapest] settles has been sent to the provider. *)
Theorem unset_wallet_is_unbounded queue r st' :
  _wallet this = None ->
  Forall (fun o => Offer.price o <= Number_MAX_VALUE) queue ->
  buyCheapest sc this queue td = Some (r, st') ->
  exists pre,
    queue = pre ++ offers st' /\
    calls st' = attempted this pre (offers st').
Proof.
  intros Hw Hq H.
  destruct (run_trace sc this td queue (mkRun queue false []) r st' eq_refl H)
    as (pre & rest & E & Hc & [Hr|(c & Hr & Hlt)]).
  - exists pre. subst rest. auto.
  - exfalso. subst queue rest. apply Forall_app in Hq. destruct Hq as [_ Hq].
    inversion Hq; subst.
    pose proof (hackExpired_le Number_MAX_VALUE c (offers st')) as Hle.
    unfold _getAccountBalance in Hlt. rewrite Hw in Hlt.
    specialize (Hle ltac:(assumption) ltac:(assumption)). lia.
Qed.

Lemma HdRel_attempted c pre rest :
  Sorted by_price (c :: pre ++ rest) ->
  HdRel Z.le (Offer.price c) (map snd (attempted this pre rest)).
Proof.
  destruct pre as [|next pre]; cbn; [constructor|].
  intros H. inversion H as [|? ? _ Hd]; subst. inversion Hd; subst.
  constructor. unfold by_price in *.
  pose proof (hackExpired_ge this next (pre ++ rest)). lia.
Qed.

Lemma Sorted_attempted pre rest :
  Sorted by_price (pre ++ rest) ->
  Sorted Z.le (map snd (attempted this pre rest)).
Proof.
  induction pre as [|c pre IH]; cbn; intros H; [constructor|].
  inversion H as [|? ? Hs Hd]; subst. constructor; [auto|].
  destruct pre as [|next pre]; cbn; [constructor|].
  constructor.
  assert (Hn : Offer.price c <= Offer.price next).
  { cbn in Hd. now inversion Hd. }
  pose proof (hackExpired_ge this next (pre ++ rest)) as Hge.
  cbn [app]. set (p := Offer.price (hackExpired this next (pre ++ rest))) in *.
  unfold hackExpired. destruct (hackExpiredOffers _); cbn; lia.
Qed.

(** The n-th call is for the n-th offer, raised against what follows it
    in the queue. *)
Lemma nth_error_attempted pre rest : forall n a,
  nth_error (attempted this pre rest) n = Some a ->
  exists c,
    nth_error pre n = Some c /\
    a = (hackExpired this c (skipn (S n) pre ++ rest),
         Offer.price (hackExpired this c (skipn (S n) pre ++ rest))).
Proof.
  induction pre as [|x pre IH]; intros [|n] a H; cbn in H; try discriminate.
  - inversion H; subst. exists x. split; reflexivity.
  - apply IH in H. destruct H as (c & Hc & ->). exists c. split; auto.
Qed.

Lemma skipn_nth_error {A} (l : list A) : forall n x,
  nth_error l n = Some x -> exists tl, skipn n l = x :: tl.
Proof.
  induction l as [|y l IH]; intros [|n] x H; cbn in H; try discriminate.
  - inversion H; subst. now exists l.
  - cbn. auto.
Qed.

Lemma Sorted_neighbours (l : list Offer.t) : forall n c next,
  Sorted by_price l ->
  nth_error l n = Some c -> nth_error l (S n) = Some next ->
  Offer.price c <= Offer.price next.
Proof.
  induction l as [|x l IH]; intros [|n] c next Hs Hc Hn; cbn in Hc, Hn;
    try discriminate.
  - inversion Hc; subst. inversion Hs as [|? ? _ Hd]; subst.
    destruct l as [|y l]; [discriminate|]. cbn in Hn. inversion Hn; subst.
    now inversion Hd.
  - inversion Hs; subst. eapply IH; eauto.
Qed.

(** X6. On a queue in ascending order of price, the purchase calls of
    [buyCheapest] are at ascending prices: the n-th call is for the n-th
    offer of the queue, at a price that is not below the listed price of
    that offer and not above the listed price of the offer after it. *)
Theorem ascending_queue_ascending_attempts queue r st' :
  Sorted by_price queue ->
  buyCheapest sc this queue td = Some (r, st') ->
  Sorted Z.le (map snd (calls st')) /\
  forall n a,
    nth_error (calls st') n = Some a ->
    exists c,
      nth_error queue n = Some c /\
      Offer.price c <= snd a /\
      forall next,
        nth_error queue (S n) = Some next -> snd a <= Offer.price next.
Proof.
  intros Hs H.
  destruct (run_trace sc this td queue (mkRun queue false []) r st' eq_refl H)
    as (pre & rest & E & Hc & _).
  cbn [calls app] in Hc. rewrite Hc. subst queue. split.
  - now apply Sorted_attempted.
  - intros n a Ha. apply nth_error_attempted in Ha.
    destruct Ha as (c & Hn & ->). exists c.
    assert (Hlt : (n < List.length pre)%nat).
    { apply nth_error_Some. congruence. }
    assert (Hq : nth_error (pre ++ rest) n = Some c).
    { now rewrite nth_error_app1. }
    split; [exact Hq|]. cbn [snd]. split; [apply hackExpired_ge|].
    intros next Hnext.
    pose proof (Sorted_neighbours _ _ _ _ Hs Hq Hnext) as Hle.
    destruct (skipn_nth_error _ _ _ Hnext) as [tl Htl].
    rewrite skipn_app in Htl.
    replace (S n - List.length pre)%nat with 0%nat in Htl by lia.
    change (skipn 0 rest) with rest in Htl. rewrite Htl.
    unfold hackExpired. destruct (hackExpiredOffers _); cbn; lia.
Qed.

End Invocations.

(** ** The queue of [getItemOffers], and [buyItem] *)

Section Permutations.
Context {A : Type} (compare : A -> A -> Z).

Lemma Permutation_sort_insert x l :
  Permutation (sort_insert compare x l) (x :: l).
Proof.
  induction l as [|y l IH]; cbn; [reflexivity|].
  destruct (compare x y <=? 0); [reflexivity|].
  rewrite IH. apply perm_swap.
Qed.

Lemma Permutation_Array_sort l : Permutation (Array_sort compare l) l.
Proof.
  induction l as [|x l IH]; cbn; [reflexivity|].
  fold (Array_sort compare l). rewrite Permutation_sort_insert. now constructor.
Qed.

End Permutations.

Lemma filter_twice {A} (f g : A -> bool) l :
  filter f (filter g l) = filter (fun x => g x && f x) l.
Proof.
  induction l as [|x l IH]; cbn; [reflexivity|].
  destruct (g x); cbn; [destruct (f x)|]; congruence.
Qed.

Lemma prepareOffers_Permutation mhn ceiling items :
  Permutation (prepareOffers mhn ceiling items)
              (filter (eligible mhn ceiling) items).
Proof.
  unfold prepareOffers. rewrite Permutation_Array_sort, filter_twice.
  reflexivity.
Qed.

Lemma min_price_extractOffers data :
  Forall (fun o => Offer.min_price o = None) (extractOffers data).
Proof.
  unfold extractOffers. apply Forall_forall. intros o Ho.
  apply in_map_iff in Ho. destruct Ho as (item & <- & _). reflexivity.
Qed.

Lemma getItemOffers_Return this mhn maxPrice queue :
  getItemOffers this mhn maxPrice = Return queue ->
  queue <> [] /\
  exists data,
    Search.success (searchV2ItemByHash (api this) mhn) = true /\
    Search.data (searchV2ItemByHash (api this) mhn) = Some data /\
    queue = prepareOffers mhn (allowedPrice this maxPrice) (extractOffers data).
Proof.
  unfold getItemOffers. fold (allowedPrice this maxPrice).
  destruct (Search.success _); cbn [negb]; [|discriminate].
  destruct (Search.data _) as [[|item items]|]; try discriminate.
  destruct (prepareOffers mhn _ _) as [|o l] eqn:E; [discriminate|].
  intros H. inversion H; subst. split; [discriminate|].
  exists (item :: items). auto.
Qed.

(** X7. [getItemOffers] returns a queue exactly when the lookup is a
    success and some raw offer passes both filters.  The queue is then not
    empty and holds the passing offers and nothing else, each as often as
    the lookup lists it, and none of them has a [min_price]. *)
Theorem getItemOffers_returns_the_eligible this mhn maxPrice :
  let lookup := searchV2ItemByHash (api this) mhn in
  let keeps := eligible mhn (allowedPrice this maxPrice) in
  (forall queue,
     getItemOffers this mhn maxPrice = Return queue ->
     queue <> [] /\
     Forall (fun o => Offer.min_price o = None) queue /\
     exists data,
       Search.success lookup = true /\ Search.data lookup = Some data /\
       Permutation queue (filter keeps (extractOffers data))) /\
  (forall data o,
     Search.success lookup = true -> Search.data lookup = Some data ->
     In o (extractOffers data) -> keeps o = true ->
     exists queue, getItemOffers this mhn maxPrice = Return queue /\ In o queue).
Proof.
  intros lookup keeps. split.
  - intros queue H. apply getItemOffers_Return in H.
    destruct H as (Hne & data & Hs & Hd & ->). split; [exact Hne|]. split.
    + apply Forall_forall. intros o Ho. apply prepareOffers_spec in Ho.
      destruct Ho as [Ho _].
      pose proof (min_price_extractOffers data) as Hm.
      rewrite Forall_forall in Hm. auto.
    + exists data. auto using prepareOffers_Permutation.
  - intros data o Hs Hd Ho Hk.
    assert (Hin : In o (prepareOffers mhn (allowedPrice this maxPrice)
                          (extractOffers data))).
    { apply prepareOffers_spec. auto. }
    unfold getItemOffers. fold lookup. fold (allowedPrice this maxPrice).
    rewrite Hs, Hd. cbn [negb].
    destruct data as [|item items]; [contradiction|].
    destruct (prepareOffers mhn _ _) as [|o' l] eqn:E; [contradiction|].
    eauto.
Qed.

Section Buying.

Variable sc : EErrorType.t -> option Z.
Variable this : MarketLayer.
Variables (hashName : string) (goodPrice : option Z).
Variables (partner token : option string).

(** X8. Every purchase call that [buyItem] makes is for an offer of the
    requested hash name, at a price that does not exceed the ceiling that
    [getItemOffers] filters with: raising an attempt price never takes it
    above that ceiling. *)
Theorem buyItem_bids_within_the_ceiling r st' :
  buyItem sc this hashName goodPrice partner token = Some (r, st') ->
  Forall (fun a => snd a <= allowedPrice this goodPrice /\
                   Offer.price (fst a) = snd a /\
                   Offer.hashName (fst a) = hashName)
         (calls st').
Proof.
  unfold buyItem.
  destruct (getItemOffers this hashName goodPrice) as [queue|e] eqn:E.
  2:{ intros H. inversion H; subst. constructor. }
  intros H. apply getItemOffers_Return in E.
  destruct E as (_ & data & _ & _ & ->).
  set (queue := prepareOffers _ _ _) in *.
  assert (Hq : Forall (fun o => Offer.price o <= allowedPrice this goodPrice /\
                                Offer.hashName o = hashName) queue).
  { apply Forall_forall. intros o Ho. apply prepareOffers_spec in Ho.
    destruct Ho as [_ Ho]. unfold eligible in Ho.
    apply andb_true_iff in Ho. destruct Ho as [Ho Hh].
    apply andb_true_iff in Ho. destruct Ho as [Hp _].
    split; [now apply Z.leb_le|now apply String.eqb_eq]. }
  destruct (run_trace sc this _ queue (mkRun queue false []) r st' eq_refl H)
    as (pre & rest & Eq & Hc & _).
  cbn in Hc. rewrite Hc, Eq in *. clear Hc Eq H.
  induction pre as [|c pre IH]; cbn; [constructor|].
  cbn in Hq. inversion Hq as [|? ? [Hp Hh] Hq']; subst.
  constructor; [|auto]. cbn. split; [|split; [reflexivity|]].
  - apply hackExpired_le; [exact Hp|].
    eapply Forall_impl; [|exact Hq']. cbn. tauto.
  - now destruct (hackExpired_ids this c (pre ++ rest)) as (_ & _ & ->).
Qed.

(** X9. When the catalogue lookup fails, [buyItem] fails with the same
    error and makes no purchase call; and it never fails with
    AttemptsFailed before it has made a purchase call. *)
Theorem buyItem_failures :
  (forall e,
     getItemOffers this hashName goodPrice = Throw e ->
     buyItem sc this hashName goodPrice partner token
     = Some (Throw e, mkRun [] false [])) /\
  (forall e st',
     buyItem sc this hashName goodPrice partner token = Some (Throw e, st') ->
     thrown e = AttemptsFailed_error ->
     calls st' <> [] /\
     exists queue, getItemOffers this hashName goodPrice = Return queue).
Proof.
  unfold buyItem. split.
  - intros e ->. reflexivity.
  - intros e st'.
    destruct (getItemOffers this hashName goodPrice) as [queue|e0] eqn:E.
    2:{ intros H He. inversion H; subst. exfalso.
        unfold getItemOffers in E.
        destruct (negb _); [inversion E; subst; discriminate|].
        destruct (Search.data _) as [[|item items]|];
          try (inversion E; subst; discriminate).
        destruct (prepareOffers _ _ _); inversion E; subst; discriminate. }
    intros H He. split; [|eauto].
    apply getItemOffers_Return in E. destruct E as (Hne & _).
    destruct queue as [|c rest]; [contradiction|].
    change (buyCheapest sc this (c :: rest) (tradeData partner token))
      with (run sc this (tradeData partner token) (mkRun (c :: rest) false []))
      in H.
    destruct (Z.le_gt_cases (Offer.price (hackExpired this c rest))
                (_getAccountBalance this)) as [Hle|Hgt].
    + destruct (run_first_call sc this (tradeData partner token)
                  (mkRun (c :: rest) false []) c rest eq_refl Hle)
        as (r & st2 & more & E2 & Hc).
      rewrite E2 in H. inversion H; subst. rewrite Hc. discriminate.
    + rewrite (run_NeedMoney sc this _ (mkRun (c :: rest) false []) c rest
                 eq_refl Hgt) in H.
      inversion H; subst. discriminate.
Qed.

End Buying.

(** ** [getItemState] with any date, or none *)

Section Reconciling.

Variable tz : Z -> Z.
Variable now : nat -> Z.
Variable buyV2 : string.
Variable has : Z -> bool.
Variable this : MarketLayer.
Variable item : Z.

Lemma buyEvent_in_Some events ev :
  buyEvent_in buyV2 item events = Some ev ->
  In ev events /\ History.event ev = buyV2 /\ History.item_id ev = item.
Proof.
  unfold buyEvent_in, extractItem. intros H. apply find_some in H.
  destruct H as [Hin Hid]. apply filter_In in Hin. destruct Hin as [Hin He].
  repeat split; [exact Hin|now apply String.eqb_eq|now apply Z.eqb_eq].
Qed.

Lemma item_of_Return o ev :
  item_of buyV2 item o = Return ev ->
  exists events, o = found events /\ buyEvent_in buyV2 item events = Some ev.
Proof.
  unfold item_of, found. destruct o as [[success data]|c]; [|discriminate].
  cbn [History.success History.data].
  destruct success; [|discriminate]. destruct data as [events|]; [|discriminate].
  destruct (buyEvent_in buyV2 item events) as [ev'|] eqn:E; [|discriminate].
  intros H. inversion H; subst. eauto.
Qed.

(** The failures of one request: the rejection of the request, or one of
    three errors that the handlers build. *)
Lemma item_of_Throw o c :
  item_of buyV2 item o = Throw c ->
  o = History.Rejected c \/
  (c = Object (raise TypeError) /\
   exists h, o = History.Resolved h /\ History.success h = true /\
             History.data h = None) \/
  (c = Object (raise (MiddlewareError EErrorType.NotFound None NoData)) /\
   exists events, o = found events /\ buyEvent_in buyV2 item events = None) \/
  (c = Object (raise (MiddlewareError EErrorType.HistoryFailed None NoData)) /\
   exists h, o = History.Resolved h /\ History.success h = false).
Proof.
  unfold item_of, found. destruct o as [[success data]|c0].
  - cbn [History.success History.data]. destruct success.
    + destruct data as [events|].
      * destruct (buyEvent_in buyV2 item events) eqn:E; [discriminate|].
        intros H. inversion H; subst. right. right. left. eauto.
      * intros H. inversion H; subst. right. left. eauto 6.
    + intros H. inversion H; subst. right. right. right. eauto.
  - intros H. inversion H; subst. auto.
Qed.

(** One request of [getItem]: without a date and with [handleTimezone] set
    it fails before any request; otherwise it makes one request, for the
    window around the date or for the whole history. *)
Lemma getItem_cases date margin log :
  (handleTimezone (_config this) = true /\ date = None /\
   getItem tz now buyV2 this item date margin log
   = (Throw (Object (raise TypeError)), log)) \/
  exists start finish,
    (start, finish)
    = match date with
      | Some t => (centre tz this t - margin, centre tz this t + margin)
      | None => (0, now (List.length log))
      end /\
    (date = None -> handleTimezone (_config this) = false) /\
    getItem tz now buyV2 this item date margin log
    = (item_of buyV2 item
         (accountV2GetHistory (api this) (List.length log) start finish),
       log ++ [(start, finish)]).
Proof.
  destruct date as [t|].
  - right. exists (centre tz this t - margin), (centre tz this t + margin).
    split; [reflexivity|]. split; [discriminate|].
    apply (getItem_window tz now buyV2 this item t margin log).
  - destruct (handleTimezone (_config this)) eqn:Etz.
    + left. unfold getItem, getBoughtItems. rewrite Etz. auto.
    + right. exists 0, (now (List.length log)).
      split; [reflexivity|]. split; [reflexivity|].
      unfold getItem, getBoughtItems, item_of, buyEvent_in. rewrite Etz.
      cbn [prop_of bind fst snd].
      destruct (accountV2GetHistory _ _ _ _) as [h|c]; [|reflexivity].
      destruct (History.success h); [|reflexivity].
      destruct (History.data h) as [events|]; [|reflexivity].
      destruct (filter _ events) as [|ev l]; [reflexivity|].
      cbn [List.length Nat.eqb]. destruct (extractItem _ _); reflexivity.
Qed.

Lemma getItem_Return date margin log ev log' :
  getItem tz now buyV2 this item date margin log = (Return ev, log') ->
  exists start finish events,
    log' = log ++ [(start, finish)] /\
    accountV2GetHistory (api this) (List.length log) start finish
    = found events /\
    In ev events /\ History.event ev = buyV2 /\ History.item_id ev = item.
Proof.
  intros H.
  destruct (getItem_cases date margin log)
    as [(_ & _ & E)|(start & finish & _ & _ & E)]; rewrite E in H.
  - discriminate.
  - inversion H as [[Hi Hl]]. apply item_of_Return in Hi.
    destruct Hi as (events & Ho & Hb). apply buyEvent_in_Some in Hb.
    exists start, finish, events. tauto.
Qed.

(** What [getItemState] does with the settlements of its requests. *)
Lemma getItemState_unfold date :
  getItemState tz now buyV2 has this item date
  = match getItem tz now buyV2 this item date initialMargin [] with
    | (Return ev, log) => (stage_of has ev, log)
    | (Throw c, log) =>
        match type_is EErrorType.NotFound c with
        | Throw raised => (Throw (set_marketId item raised), log)
        | Return false => (Throw (throw_with_marketId item c), log)
        | Return true =>
            match getItem tz now buyV2 this item date extendedMargin log with
            | (Return ev, log') => (stage_of has ev, log')
            | (Throw c', log') => (Throw (throw_with_marketId item c'), log')
            end
        end
    end.
Proof.
  unfold getItemState, makeRequests, stage_of.
  destruct (getItem tz now buyV2 this item date initialMargin [])
    as [[ev|c] log].
  - destruct (has _); reflexivity.
  - destruct (type_is EErrorType.NotFound c) as [[|]|raised]; try reflexivity.
    destruct (getItem tz now buyV2 this item date extendedMargin log)
      as [[ev|c'] log']; [destruct (has _)|]; reflexivity.
Qed.

Lemma stage_of_Return ev stage :
  stage_of has ev = Return stage -> has stage = true /\ History.stage ev = stage.
Proof.
  unfold stage_of. destruct (has (History.stage ev)) eqn:E; [|discriminate].
  intros H. inversion H; subst. auto.
Qed.

Lemma stage_of_Throw ev e :
  stage_of has ev = Throw e ->
  e = raise (MiddlewareError EErrorType.UnknownStage None NoData).
Proof.
  unfold stage_of. destruct (has _); [discriminate|].
  intros H. now inversion H.
Qed.

(** X10. A stage that [getItemState] returns is a known stage, and it is
    the stage of a buy event of the requested item that one of the history
    requests made has answered with. *)
Theorem getItemState_returns_a_recorded_stage date stage log :
  getItemState tz now buyV2 has this item date = (Return stage, log) ->
  has stage = true /\
  exists n start finish events ev,
    nth_error log n = Some (start, finish) /\
    accountV2GetHistory (api this) n start finish = found events /\
    In ev events /\
    History.event ev = buyV2 /\
    History.item_id ev = item /\
    History.stage ev = stage.
Proof.
  rewrite getItemState_unfold.
  assert (Hfound : forall log0 margin ev log1,
    getItem tz now buyV2 this item date margin log0 = (Return ev, log1) ->
    (stage_of has ev, log1) = (Return stage, log) ->
    has stage = true /\
    exists n start finish events ev,
      nth_error log n = Some (start, finish) /\
      accountV2GetHistory (api this) n start finish = found events /\
      In ev events /\
      History.event ev = buyV2 /\
      History.item_id ev = item /\
      History.stage ev = stage).
  { intros log0 margin ev log1 E H. inversion H as [[Hs Hl]].
    apply stage_of_Return in Hs. destruct Hs as [Hh Hst].
    split; [exact Hh|].
    apply getItem_Return in E.
    destruct E as (start & finish & events & El & Ho & Hin & He & Hi).
    exists (List.length log0), start, finish, events, ev.
    repeat split; auto.
    rewrite <- Hl, El, nth_error_app2 by lia. now rewrite Nat.sub_diag. }
  destruct (getItem tz now buyV2 this item date initialMargin [])
    as [[ev|c] log1] eqn:E1.
  - eapply Hfound; eauto.
  - destruct (type_is EErrorType.NotFound c) as [[|]|raised];
      [|discriminate..].
    destruct (getItem tz now buyV2 this item date extendedMargin log1)
      as [[ev|c2] log2] eqn:E2; [|discriminate].
    eapply Hfound; eauto.
Qed.

(** The failures of one request of [getItem], with the request made. *)
Lemma getItem_Throw date margin log c log' :
  getItem tz now buyV2 this item date margin log = (Throw c, log') ->
  (date = None /\ handleTimezone (_config this) = true /\
   c = Object (raise TypeError) /\ log' = log) \/
  exists start finish,
    log' = log ++ [(start, finish)] /\
    (date = None -> handleTimezone (_config this) = false) /\
    item_of buyV2 item
      (accountV2GetHistory (api this) (List.length log) start finish)
    = Throw c.
Proof.
  intros H.
  destruct (getItem_cases date margin log)
    as [(Htz & Hd & E)|(start & finish & _ & Hz & E)]; rewrite E in H.
  - inversion H; subst. auto.
  - inversion H as [[Hi Hl]]. right. exists start, finish. rewrite Hi. auto.
Qed.

(** X11. [getItemState] makes two history requests at most.  An error that
    it throws is UnknownStage, with no item id; or NotFound or
    HistoryFailed, with the item id; or a [TypeError] with the item id, for
    a date that is missing, for a success without [data], or for a first
    request rejected with [undefined] or [null]; or it is what one of the
    requests made was rejected with, with the item id attached when that
    is an object, and a [TypeError] without the item id when it is not. *)
Theorem getItemState_failures date r log :
  getItemState tz now buyV2 has this item date = (r, log) ->
  (List.length log <= 2)%nat /\
  forall e, r = Throw e ->
    e = raise (MiddlewareError EErrorType.UnknownStage None NoData) \/
    e = mkExn (MiddlewareError EErrorType.NotFound None NoData) None
              (Some item) \/
    e = mkExn (MiddlewareError EErrorType.HistoryFailed None NoData) None
              (Some item) \/
    (e = mkExn TypeError None (Some item) /\
     ((date = None /\ handleTimezone (_config this) = true /\ log = []) \/
      (exists n start finish h,
         nth_error log n = Some (start, finish) /\
         accountV2GetHistory (api this) n start finish = History.Resolved h /\
         History.success h = true /\ History.data h = None) \/
      (exists start finish,
         log = [(start, finish)] /\
         accountV2GetHistory (api this) 0 start finish
         = History.Rejected Nullish))) \/
    (exists n start finish c,
       nth_error log n = Some (start, finish) /\
       accountV2GetHistory (api this) n start finish = History.Rejected c /\
       e = throw_with_marketId item c).
Proof.
  rewrite getItemState_unfold.
  assert (Hstage : forall ev log1,
    (List.length log1 <= 2)%nat ->
    (stage_of has ev, log1) = (r, log) ->
    (List.length log <= 2)%nat /\
    forall e, r = Throw e ->
      e = raise (MiddlewareError EErrorType.UnknownStage None NoData) \/
      e = mkExn (MiddlewareError EErrorType.NotFound None NoData) None
                (Some item) \/
      e = mkExn (MiddlewareError EErrorType.HistoryFailed None NoData) None
                (Some item) \/
      (e = mkExn TypeError None (Some item) /\
       ((date = None /\ handleTimezone (_config this) = true /\ log = []) \/
        (exists n start finish h,
           nth_error log n = Some (start, finish) /\
           accountV2GetHistory (api this) n start finish = History.Resolved h /\
           History.success h = true /\ History.data h = None) \/
        (exists start finish,
           log = [(start, finish)] /\
           accountV2GetHistory (api this) 0 start finish
           = History.Rejected Nullish))) \/
      (exists n start finish c,
         nth_error log n = Some (start, finish) /\
         accountV2GetHistory (api this) n start finish = History.Rejected c /\
         e = throw_with_marketId item c)).
  { intros ev log1 Hl H. inversion H; subst. split; [exact Hl|].
    intros e He. left. now apply stage_of_Throw in He. }
  (* the failure of the request that was made after [log0] *)
  assert (Hreq : forall log0 start finish c,
    item_of buyV2 item
      (accountV2GetHistory (api this) (List.length log0) start finish)
    = Throw c ->
    let e := throw_with_marketId item c in
    let log1 := log0 ++ [(start, finish)] in
    e = mkExn (MiddlewareError EErrorType.NotFound None NoData) None
              (Some item) \/
    e = mkExn (MiddlewareError EErrorType.HistoryFailed None NoData) None
              (Some item) \/
    (e = mkExn TypeError None (Some item) /\
     exists n start finish h,
       nth_error log1 n = Some (start, finish) /\
       accountV2GetHistory (api this) n start finish = History.Resolved h /\
       History.success h = true /\ History.data h = None) \/
    (exists n start finish c,
       nth_error log1 n = Some (start, finish) /\
       accountV2GetHistory (api this) n start finish = History.Rejected c /\
       e = throw_with_marketId item c)).
  { intros log0 start finish c Hi e log1.
    assert (Hn : nth_error log1 (List.length log0) = Some (start, finish)).
    { unfold log1. rewrite nth_error_app2 by lia. now rewrite Nat.sub_diag. }
    apply item_of_Throw in Hi.
    destruct Hi as [Ho|[(-> & h & Ho & Hs & Hd)|[(-> & _)|(-> & _)]]].
    - right. right. right. exists (List.length log0), start, finish, c. auto.
    - right. right. left. split; [reflexivity|].
      exists (List.length log0), start, finish, h. auto.
    - left. reflexivity.
    - right. left. reflexivity. }
  destruct (getItem tz now buyV2 this item date initialMargin [])
    as [[ev|c1] log1] eqn:E1.
  - apply getItem_Return in E1. destruct E1 as (s1 & f1 & ev1 & -> & _).
    apply Hstage. cbn. lia.
  - apply getItem_Throw in E1.
    destruct E1 as [(Hd & Htz & -> & ->)|(s1 & f1 & -> & Hz1 & Hi1)].
    + cbn [type_is has_type raise thrown]. intros H. inversion H; subst.
      split; [cbn; lia|]. intros e He. inversion He; subst.
      right. right. right. left. split; [reflexivity|]. left. auto.
    + pose proof (Hreq [] s1 f1 c1 Hi1) as Hk1. cbv zeta in Hk1.
      cbn [app List.length] in *.
      destruct (type_is EErrorType.NotFound c1) as [[|]|raised] eqn:Et.
      * destruct (getItem tz now buyV2 this item date extendedMargin [(s1, f1)])
          as [[ev|c2] log2] eqn:E2.
        -- apply getItem_Return in E2. destruct E2 as (s2 & f2 & ev2 & -> & _).
           apply Hstage. cbn. lia.
        -- apply getItem_Throw in E2.
           destruct E2 as [(Hd & Htz & -> & ->)|(s2 & f2 & -> & _ & Hi2)].
           ++ rewrite (Hz1 Hd) in Htz. discriminate.
           ++ pose proof (Hreq [(s1, f1)] s2 f2 c2 Hi2) as Hk2.
              cbv zeta in Hk2. cbn [app List.length] in Hk2.
              intros H. inversion H; subst. split; [cbn; lia|].
              intros e He. inversion He; subst.
              destruct Hk2 as [Hk|[Hk|[(Hk & Hw)|Hk]]]; auto.
              right. right. right. left. auto.
      * intros H. inversion H; subst. split; [cbn; lia|].
        intros e He. inversion He; subst.
        destruct Hk1 as [Hk|[Hk|[(Hk & Hw)|Hk]]]; auto.
        right. right. right. left. auto.
      * intros H. inversion H; subst. split; [cbn; lia|].
        intros e He. inversion He; subst.
        destruct c1 as [e1| |]; cbn [type_is] in Et; try discriminate.
        inversion Et; subst.
        apply item_of_Throw in Hi1.
        destruct Hi1 as [Ho|[(Hc & _)|[(Hc & _)|(Hc & _)]]];
          try discriminate.
        right. right. right. left. split; [reflexivity|].
        right. right. exists s1, f1. auto.
Qed.

(** X12. A history request that fails is not made again: with a date,
    a failed first request ends [getItemState] with HistoryFailed after that
    one request, and a failed second request ends it with HistoryFailed,
    not with NotFound; both carry the item id. *)
Theorem getItemState_does_not_retry_a_failed_request t :
  let T := centre tz this t in
  let first := accountV2GetHistory (api this) 0 (T - 45000) (T + 45000) in
  let second := accountV2GetHistory (api this) 1 (T - 300000) (T + 300000) in
  let HistoryFailed :=
    mkExn (MiddlewareError EErrorType.HistoryFailed None NoData) None
          (Some item) in
  (forall h,
     first = History.Resolved h ->
     History.success h = false ->
     getItemState tz now buyV2 has this item (Some t)
     = (Throw HistoryFailed, [(T - 45000, T + 45000)])) /\
  (forall events h,
     first = found events ->
     buyEvent_in buyV2 item events = None ->
     second = History.Resolved h ->
     History.success h = false ->
     getItemState tz now buyV2 has this item (Some t)
     = (Throw HistoryFailed,
        [(T - 45000, T + 45000); (T - 300000, T + 300000)])).
Proof.
  intros T first second HistoryFailed.
  rewrite getItemState_unfold.
  rewrite (getItem_window tz now buyV2 this item t). cbn zeta.
  cbn [List.length app]. change initialMargin with 45000.
  fold T. fold first.
  split.
  - intros h -> Hs. unfold item_of. rewrite Hs. reflexivity.
  - intros events h -> Hev Hsecond Hs.
    rewrite (item_of_found buyV2 item), Hev.
    cbn [type_is has_type raise thrown EErrorType.eqb].
    rewrite (getItem_window tz now buyV2 this item t). cbn zeta.
    cbn [List.length app]. change extendedMargin with 300000.
    fold T. fold second. rewrite Hsecond.
    unfold item_of. rewrite Hs. reflexivity.
Qed.

(** X13. Without a date: with [handleTimezone] set, [getItemState] fails
    with a [TypeError] before any history request; with it unset, the first
    request is for the whole history up to the present, and when the item
    is missing there the second request is for the whole history again,
    whatever the margins. *)
Theorem getItemState_without_a_date :
  (handleTimezone (_config this) = true ->
   getItemState tz now buyV2 has this item None
   = (Throw (mkExn TypeError None (Some item)), [])) /\
  (handleTimezone (_config this) = false ->
   let first := accountV2GetHistory (api this) 0 0 (now 0) in
   (exists more,
      snd (getItemState tz now buyV2 has this item None) = (0, now 0) :: more) /\
   (forall events,
      first = found events ->
      buyEvent_in buyV2 item events = None ->
      snd (getItemState tz now buyV2 has this item None)
      = [(0, now 0); (0, now 1)])).
Proof.
  rewrite getItemState_unfold. split.
  - intros Htz.
    destruct (getItem_cases None initialMargin [])
      as [(_ & _ & E)|(s & f & _ & Hz & _)].
    + rewrite E. reflexivity.
    + rewrite (Hz eq_refl) in Htz. discriminate.
  - intros Htz. cbv zeta.
    destruct (getItem_cases None initialMargin [])
      as [(Hz & _)|(s1 & f1 & Ew & _ & E1)]; [congruence|].
    inversion Ew; subst s1 f1. rewrite E1. clear E1 Ew.
    cbn [List.length app].
    destruct (getItem_cases None extendedMargin [(0, now 0%nat)])
      as [(Hz & _)|(s2 & f2 & Ew2 & _ & E2)]; [congruence|].
    inversion Ew2; subst s2 f2. cbn [List.length app] in E2. rewrite E2.
    clear E2 Ew2.
    split.
    + destruct (item_of buyV2 item (accountV2GetHistory (api this) 0 0 (now 0%nat)))
        as [ev|c]; [cbn; eauto|].
      destruct (type_is EErrorType.NotFound c) as [[|]|raised];
        [|cbn; eauto..].
      destruct (item_of buyV2 item
                  (accountV2GetHistory (api this) 1 0 (now 1%nat)));
        cbn; eauto.
    + intros events Hf Hev. rewrite Hf, (item_of_found buyV2 item), Hev.
      cbn [type_is has_type raise thrown EErrorType.eqb].
      destruct (item_of buyV2 item
                  (accountV2GetHistory (api this) 1 0 (now 1%nat)));
        reflexivity.
Qed.

(** X19. A history request that rejects, with a date.  A first request
    rejected with an error object ends [getItemState] with that object,
    the item id attached, after that one request, unless the [type] of the
    object is NotFound: then the wider window is asked for.  Rejected with
    [undefined] or [null], it ends it with a [TypeError] that carries the
    item id; rejected with another primitive, with a [TypeError] that
    carries none.  A success without [data] ends it with a [TypeError]
    that carries the item id.  A second request that rejects ends it with
    the object and the item id, or with a [TypeError] without the item id
    for a value that is no object. *)
Theorem getItemState_rejected_request t :
  let T := centre tz this t in
  let first := accountV2GetHistory (api this) 0 (T - 45000) (T + 45000) in
  let second := accountV2GetHistory (api this) 1 (T - 300000) (T + 300000) in
  let answer := getItemState tz now buyV2 has this item (Some t) in
  let once := [(T - 45000, T + 45000)] in
  let twice := [(T - 45000, T + 45000); (T - 300000, T + 300000)] in
  (forall e,
     first = History.Rejected (Object e) ->
     has_type EErrorType.NotFound e = false ->
     answer = (Throw (set_marketId item e), once)) /\
  (forall e,
     first = History.Rejected (Object e) ->
     has_type EErrorType.NotFound e = true ->
     snd answer = twice) /\
  (first = History.Rejected Nullish ->
   answer = (Throw (mkExn TypeError None (Some item)), once)) /\
  (first = History.Rejected Scalar ->
   answer = (Throw (raise TypeError), once)) /\
  (forall h,
     first = History.Resolved h ->
     History.success h = true ->
     History.data h = None ->
     answer = (Throw (mkExn TypeError None (Some item)), once)) /\
  (forall events c,
     first = found events ->
     buyEvent_in buyV2 item events = None ->
     second = History.Rejected c ->
     answer = (Throw (throw_with_marketId item c), twice)).
Proof.
  intros T first second answer once twice. unfold answer.
  rewrite getItemState_unfold.
  rewrite (getItem_window tz now buyV2 this item t). cbn zeta.
  cbn [List.length app]. change initialMargin with 45000.
  fold T. fold first.
  assert (Hsecond :
    getItem tz now buyV2 this item (Some t) extendedMargin once
    = (item_of buyV2 item second, twice)).
  { rewrite (getItem_window tz now buyV2 this item t). reflexivity. }
  repeat split.
  - intros e -> Ht. cbn [item_of type_is]. rewrite Ht. reflexivity.
  - intros e -> Ht. cbn [item_of type_is]. rewrite Ht. fold once.
    rewrite Hsecond. destruct (item_of buyV2 item second); reflexivity.
  - intros ->. reflexivity.
  - intros ->. reflexivity.
  - intros h -> Hs Hd. unfold item_of. rewrite Hs, Hd. reflexivity.
  - intros events c -> Hev Hc. rewrite (item_of_found buyV2 item), Hev.
    cbn [type_is has_type raise thrown EErrorType.eqb]. fold once.
    rewrite Hsecond, Hc. reflexivity.
Qed.

End Reconciling.

(** ** The message table read both ways *)

Lemma strict_eq_JsString v m :
  strict_eq v (JsString m) = true <-> v = JsString m.
Proof.
  destruct v; cbn; split; try discriminate.
  - intros H. apply String.eqb_eq in H. now subst.
  - intros H. inversion H. apply String.eqb_refl.
Qed.

Lemma hash_in_name tbl message name :
  EMarketMessage.hash_in tbl message = JsString name ->
  In name (map fst tbl).
Proof.
  induction tbl as [|[n v] tbl IH]; cbn; [discriminate|].
  destruct (strict_eq v message).
  - intros H. inversion H. now left.
  - intros H. right. auto.
Qed.

Lemma distinct_not_In name names :
  existsb (String.eqb name) names = false -> ~ In name names.
Proof.
  intros H Hin. assert (existsb (String.eqb name) names = true); [|congruence].
  apply existsb_exists. exists name. split; [exact Hin|apply String.eqb_refl].
Qed.

(** In a table of distinct names, the value under the name that [hash]
    gives for a message is identical to the message. *)
Lemma lookup_hash_in tbl message name :
  distinct (map fst tbl) = true ->
  EMarketMessage.hash_in tbl message = JsString name ->
  strict_eq (EMarketMessage.lookup tbl name) message = true.
Proof.
  induction tbl as [|[n v] tbl IH]; cbn; [discriminate|].
  intros Hd. apply andb_true_iff in Hd. destruct Hd as [Hn Hd].
  apply negb_true_iff in Hn.
  destruct (strict_eq v message) eqn:Ev.
  - intros H. inversion H; subst. now rewrite String.eqb_refl.
  - intros H. pose proof (hash_in_name _ _ _ H) as Hin.
    destruct (String.eqb_spec n name) as [->|_].
    + now apply distinct_not_In in Hn.
    + auto.
Qed.

(** X14. The way [_tryToBuy] reads a raw message,
    [EMarketMessage[EMarketMessage.hash(m)]], gives the message back when
    the table holds it, under whichever name, and [undefined] when it does
    not. *)
Theorem message_round_trip m :
  EMarketMessage.get_computed (EMarketMessage.hash (JsString m))
  = if EMarketMessage.known m then JsString m else JsUndefined.
Proof.
  destruct (EMarketMessage.known m) eqn:Ek.
  - unfold EMarketMessage.hash.
    destruct (EMarketMessage.hash_in EMarketMessage.table (JsString m))
      as [| |name|] eqn:Eh.
    + exfalso. clear Ek. revert Eh. generalize EMarketMessage.table.
      induction l as [|[n v] l IH]; cbn; [discriminate|].
      destruct (strict_eq v (JsString m)); [discriminate|exact IH].
    + exfalso. unfold EMarketMessage.known in Ek.
      apply existsb_exists in Ek. destruct Ek as ([n v] & Hin & Hv).
      cbn in Hv. clear -Eh Hin Hv. revert Eh Hin.
      generalize EMarketMessage.table.
      induction l as [|[n' v'] l IH]; cbn; [tauto|].
      destruct (strict_eq v' (JsString m)) eqn:E; [discriminate|].
      intros Eh [Hin|Hin]; [inversion Hin; subst; congruence|auto].
    + cbn [EMarketMessage.get_computed]. unfold EMarketMessage.get.
      apply strict_eq_JsString. apply lookup_hash_in; [reflexivity|exact Eh].
    + exfalso. clear Ek. revert Eh. generalize EMarketMessage.table.
      induction l as [|[n v] l IH]; cbn; [discriminate|].
      destruct (strict_eq v (JsString m)); [discriminate|exact IH].
  - unfold EMarketMessage.hash. rewrite hash_in_unknown; [reflexivity|exact Ek].
Qed.

(** ** The account operations *)

Section Accounts.

Variable account : AccountApi.

(** X15. [ping] does not throw on an answer of the provider whose [ping]
    is a string: it returns that string when the answer is a success,
    [undefined] when the string is TooEarlyToPong, and [null] otherwise,
    also when the string is CheckTokenOrMobile.  It throws what it caught
    only for a request that rejected with the message CheckTokenOrMobile;
    anything else it throws is the [TypeError] of its own handler. *)
Theorem ping_settlements :
  (forall data s,
     accountPingPong account = Return data ->
     Ping.ping data = JsString s ->
     ping account
     = Return (if Ping.success data then JsString s
               else if strict_eq (JsString s) TooEarlyToPong then JsUndefined
               else JsNull)) /\
  (forall message,
     accountPingPong account = Throw (ErrorObject message) ->
     ping account
     = if strict_eq message CheckTokenOrMobile
       then Throw (Rethrown (ErrorObject message))
       else Return JsNull) /\
  (forall f,
     ping account = Throw f ->
     f = HandlerTypeError \/
     exists e,
       f = Rethrown e /\
       accountPingPong account = Throw e /\
       message_of_reason e
       = Some (JsString "token_check_or_mobile_authenticator"%string)).
Proof.
  unfold ping. fold TooEarlyToPong. fold CheckTokenOrMobile.
  split; [|split].
  - intros data s -> ->. destruct (Ping.success data); [reflexivity|].
    destruct (strict_eq (JsString s) TooEarlyToPong); reflexivity.
  - intros message ->. cbn [message_of_reason].
    destruct (strict_eq message CheckTokenOrMobile); reflexivity.
  - intros f.
    assert (Hcatch : forall e,
      match message_of_reason e with
      | Some message =>
          if negb (strict_eq message CheckTokenOrMobile)
          then Return JsNull else Throw (Rethrown e)
      | None => Throw HandlerTypeError
      end = Throw f ->
      f = HandlerTypeError \/
      (f = Rethrown e /\
       message_of_reason e
       = Some (JsString "token_check_or_mobile_authenticator"%string))).
    { intros e. destruct (message_of_reason e) as [message|];
        [|intros H; inversion H; auto].
      destruct (strict_eq message CheckTokenOrMobile) eqn:E; cbn [negb];
        [|discriminate].
      intros H. inversion H; subst. right. split; [reflexivity|].
      f_equal. apply strict_eq_JsString. exact E. }
    destruct (accountPingPong account) as [data|e].
    + destruct (Ping.success data); [discriminate|].
      destruct (negb _); [|discriminate].
      intros H. apply Hcatch in H. destruct H as [H|[_ H]]; [auto|].
      exfalso. destruct (Ping.ping data); discriminate.
    + intros H. apply Hcatch in H. destruct H as [H|[H1 H2]]; eauto.
Qed.

(** X16. [setTradeToken] sends the new token exactly when the token could
    be read and is not the new one already, and it sends it once.  It
    rejects only with what one of its two requests rejected with: an answer
    of [accountSetToken] that is not a success is reported as an update done
    like any other. *)
Theorem setTradeToken_reports_no_failed_update newToken :
  let settled := fst (setTradeToken account newToken) in
  let sent := snd (setTradeToken account newToken) in
  (sent = [newToken] \/ sent = []) /\
  (sent = [newToken] <->
   exists data,
     accountGetToken account = Return data /\
     Token.success data = true /\
     Token.token data <> JsString newToken) /\
  (forall answer,
     sent = [newToken] ->
     accountSetToken account newToken = Return answer ->
     settled = Return tt) /\
  (forall e,
     settled = Throw e ->
     accountGetToken account = Throw e \/
     (sent = [newToken] /\ accountSetToken account newToken = Throw e)).
Proof.
  unfold setTradeToken.
  destruct (accountGetToken account) as [data|e0]; cbn.
  2:{ repeat split; auto; try discriminate.
      - intros (data & H & _). discriminate.
      - intros e H. inversion H. auto. }
  destruct (Token.success data) eqn:Es; cbn [andb].
  2:{ cbn. repeat split; auto; try discriminate.
      intros (d & H & Hs & _). inversion H; subst. congruence. }
  destruct (strict_eq (Token.token data) (JsString newToken)) eqn:Et; cbn [negb].
  - apply strict_eq_JsString in Et. cbn. repeat split; auto; try discriminate.
    intros (d & H & _ & Hn). inversion H; subst. contradiction.
  - assert (Hn : Token.token data <> JsString newToken).
    { intros H. apply strict_eq_JsString in H. congruence. }
    destruct (accountSetToken account newToken) as [answer|e]; cbn;
      repeat split; auto; try discriminate; eauto.
    intros e' H. inversion H; subst. auto.
Qed.

Lemma getWsAuth_skips k : forall fuel n,
  (forall i, (n <= i < n + k)%nat -> auth_fails account i) ->
  getWsAuth account (k + fuel) n = getWsAuth account fuel (n + k).
Proof.
  induction k as [|k IH]; intros fuel n Hf.
  - now rewrite Nat.add_0_r.
  - cbn [Nat.add getWsAuth].
    pose proof (Hf n ltac:(lia)) as Hn. unfold auth_fails in Hn.
    rewrite IH by (intros i Hi; apply Hf; lia).
    replace (n + S k)%nat with (S n + k)%nat by lia.
    destruct (accountV2GetWSAuth account n) as [auth|e]; [|reflexivity].
    now rewrite Hn.
Qed.

(** X17. [getWsAuth] asks again after every failure, rejections and answers
    without [success] alike: when the first call to succeed is the one after
    [k] failures, it returns the [wsAuth] of that answer after [k + 1]
    calls, whatever bound above [k] is put on the number of calls; and when
    no call succeeds, it settles under no bound. *)
Theorem getWsAuth_returns_the_first_success :
  (forall k auth,
     (forall i, (i < k)%nat -> auth_fails account i) ->
     accountV2GetWSAuth account k = Return auth ->
     WsAuth.success auth = true ->
     forall fuel, (k < fuel)%nat ->
       getWsAuth account fuel 0 = Some (WsAuth.wsAuth auth, S k)) /\
  ((forall i, auth_fails account i) ->
   forall fuel, getWsAuth account fuel 0 = None).
Proof.
  split.
  - intros k auth Hf Hk Hs fuel Hlt.
    replace fuel with (k + S (fuel - S k))%nat by lia.
    rewrite getWsAuth_skips by (intros i Hi; apply Hf; lia).
    cbn. now rewrite Hk, Hs.
  - intros Hf fuel.
    replace fuel with (fuel + 0)%nat by lia.
    rewrite getWsAuth_skips by (intros; apply Hf). reflexivity.
Qed.

End Accounts.

(** ** The discount *)

Lemma Math_round_integer (p : Z) :
  Math_round (inject_Z p * (1 - 0))%Q = p.
Proof.
  unfold Math_round, Qfloor. cbn.
  rewrite Z.mul_1_r. symmetry.
  apply (Z.div_unique (p * 2 + 1) 2 p 1); lia.
Qed.

Lemma after_discount changes : forall this,
  (_buyDiscount this = None \/ _buyDiscount this = Some 0%Q) ->
  (_buyDiscount (after changes this) = None \/
   _buyDiscount (after changes this) = Some 0%Q) /\
  _config (after changes this) = _config this /\
  api (after changes this) = api this.
Proof.
  unfold after.
  induction changes as [|c changes IH]; intros this H; cbn; [auto|].
  destruct (IH (change this c)) as (Hd & Hc & Ha);
    [destruct c; cbn; auto|].
  rewrite Hc, Ha. destruct c; auto.
Qed.

(** X18. As the code obtains the discount, it never changes a price: in a
    layer as the constructor builds it, after any number of balance
    settings and of runs of the discount watcher, [_applyDiscount] returns
    the price it is given, with [applyDiscounts] on or off. *)
Theorem discount_never_changes_a_price config market changes price :
  _applyDiscount (after changes (new_MarketLayer config market)) price = price.
Proof.
  destruct (after_discount changes (new_MarketLayer config market))
    as (Hd & _); [left; reflexivity|].
  unfold _applyDiscount. destruct (negb _); [reflexivity|].
  destruct Hd as [-> | ->]; apply Math_round_integer.
Qed.

(* ================================================================== *)
(** ** The further theorems at concrete inputs *)

Lemma _tryToBuy_settlements_witness :
  _tryToBuy rejects_for_the_price 0 (offer_at 100) None
    <> Throw (raise TypeError) /\
  (exists response,
     buyV2CreateFor (api always_sells) 0 (offer_at 100) 100 None
       = Buy.Resolved response /\
     Buy.success response = true) /\
  (raise BadOfferPrice_error = raise TypeError \/
   In (Throw (raise BadOfferPrice_error)) (fatal_settlements 100)).
Proof.
  split; [|split].
  - destruct (_tryToBuy_settlements rejects_for_the_price 0 (offer_at 100) None)
      as (_ & _ & H).
    apply (H (Some BadOfferPrice_message) None eq_refl).
  - destruct (_tryToBuy_settlements always_sells 0 (offer_at 100) None)
      as (_ & H & _).
    apply (H (Purchase.mk 7 "310776560" "0" 100 None)). reflexivity.
  - destruct (_tryToBuy_settlements rejects_for_the_price 0 (offer_at 100) None)
      as (H & _).
    apply (H (raise BadOfferPrice_error)). reflexivity.
Defined.

Lemma buyCheapest_calls_in_queue_order_witness :
  let st' := mkRun [offer_at 250] true
               (attempted twice_BadOfferPrice
                  [offer_at 100; offer_at 150; offer_at 170; offer_at 200]
                  [offer_at 250]) in
  exists pre rest,
    five_offers = pre ++ rest /\
    calls st' = attempted twice_BadOfferPrice pre rest /\
    (offers st' = rest \/ exists c, rest = c :: offers st') /\
    (List.length (calls st') <= List.length five_offers)%nat.
Proof.
  intros st'.
  apply (buyCheapest_calls_in_queue_order no_statusCode twice_BadOfferPrice
           None five_offers (Throw (raise BadOfferPrice_error)) st').
  vm_compute. reflexivity.
Defined.

Lemma buyCheapest_purchase_witness :
  let data := Purchase.mk 7 "310776560" "0" 100 (Some 100) in
  let st' := mkRun [offer_at 150] false
               (attempted always_sells [offer_at 100] [offer_at 150]) in
  exists pre c response,
    [offer_at 100; offer_at 150] = pre ++ c :: offers st' /\
    List.length (calls st') = S (List.length pre) /\
    buyV2CreateFor (api always_sells) (List.length pre)
      (hackExpired always_sells c (offers st'))
      (Offer.price (hackExpired always_sells c (offers st'))) None
      = Buy.Resolved response /\
    Buy.success response = true /\
    Purchase.uiId data = Buy.id response /\
    Purchase.classId data = Offer.classId c /\
    Purchase.instanceId data = Offer.instanceId c /\
    (Offer.min_price c = None ->
     (Offer.price c <> 0 ->
      Purchase.price data = _applyDiscount always_sells (Offer.price c)) /\
     (Purchase.offerPrice data = None \/
      Purchase.offerPrice data = Some (Offer.price c))).
Proof.
  intros data st'.
  apply (buyCheapest_purchase no_statusCode always_sells None
           [offer_at 100; offer_at 150] data st').
  vm_compute. reflexivity.
Defined.

Lemma BadOfferPrice_takes_two_calls_witness :
  let st' := mkRun [offer_at 250] true
               (attempted twice_BadOfferPrice
                  [offer_at 100; offer_at 150; offer_at 170; offer_at 200]
                  [offer_at 250]) in
  (2 <= List.length (calls st'))%nat /\ badItemPrice st' = true.
Proof.
  intros st'.
  apply (BadOfferPrice_takes_two_calls no_statusCode twice_BadOfferPrice None
           five_offers (raise BadOfferPrice_error) st').
  - vm_compute. reflexivity.
  - reflexivity.
Defined.

Lemma unset_wallet_is_unbounded_witness :
  let st' := mkRun [] false
               (attempted never_sells
                  [offer_at 100; offer_at 150; offer_at 170] []) in
  exists pre,
    [offer_at 100; offer_at 150; offer_at 170] = pre ++ offers st' /\
    calls st' = attempted never_sells pre (offers st').
Proof.
  intros st'.
  apply (unset_wallet_is_unbounded no_statusCode never_sells None
           [offer_at 100; offer_at 150; offer_at 170]
           (Throw (raise AttemptsFailed_error)) st').
  - reflexivity.
  - repeat constructor; vm_compute; discriminate.
  - vm_compute. reflexivity.
Defined.

Lemma ascending_queue_ascending_attempts_witness :
  let st' := mkRun [offer_at 150] false
               (attempted always_sells [offer_at 100] [offer_at 150]) in
  Sorted Z.le (map snd (calls st')) /\
  forall n a,
    nth_error (calls st') n = Some a ->
    exists c,
      nth_error [offer_at 100; offer_at 150] n = Some c /\
      Offer.price c <= snd a /\
      forall next,
        nth_error [offer_at 100; offer_at 150] (S n) = Some next ->
        snd a <= Offer.price next.
Proof.
  intros st'.
  apply (ascending_queue_ascending_attempts no_statusCode always_sells None
           [offer_at 100; offer_at 150]
           (Return (Purchase.mk 7 "310776560" "0" 100 (Some 100))) st').
  - repeat constructor; vm_compute; discriminate.
  - vm_compute. reflexivity.
Defined.

Lemma getItemOffers_returns_the_eligible_witness :
  (exists data,
     Search.success (searchV2ItemByHash (api four_listings) item_name) = true /\
     Search.data (searchV2ItemByHash (api four_listings) item_name) = Some data /\
     Permutation [listed 100 1; listed 110 2]
       (filter (eligible item_name (allowedPrice four_listings (Some 120)))
               (extractOffers data))) /\
  (exists queue,
     getItemOffers four_listings item_name (Some 120) = Return queue /\
     In (listed 110 2) queue).
Proof.
  pose proof (getItemOffers_returns_the_eligible four_listings item_name
                (Some 120)) as H.
  cbv zeta in H. destruct H as [H1 H2]. split.
  - destruct (H1 [listed 100 1; listed 110 2] eq_refl) as (_ & _ & H).
    exact H.
  - apply (H2 [ listing item_name 130 1; listing item_name 110 2;
                listing "AWP | Asiimov" 90 1; listing item_name 100 1;
                listing item_name 95 0 ]); try reflexivity.
    right. left. reflexivity.
Defined.

Lemma buyItem_bids_within_the_ceiling_witness :
  let st' := mkRun [listed 110 2] false
               (attempted (customer sold) [listed 100 1] [listed 110 2]) in
  Forall (fun a => snd a <= allowedPrice (customer sold) (Some 120) /\
                   Offer.price (fst a) = snd a /\
                   Offer.hashName (fst a) = item_name)
         (calls st').
Proof.
  intros st'.
  apply (buyItem_bids_within_the_ceiling no_statusCode (customer sold)
           item_name (Some 120) None None
           (Return (Purchase.mk 7 "310776560" "0" 100 (Some 100))) st').
  vm_compute. reflexivity.
Defined.

Lemma buyItem_failures_witness :
  buyItem no_statusCode (shopper no_search) item_name None None None
  = Some (Throw (raise (MiddlewareError EErrorType.RequestFailed
                          (Some EErrorSource.Market) NoData)),
          mkRun [] false []) /\
  let st' := mkRun [] false
               (attempted (customer (rejected_with unheard_of))
                  [listed 100 1; listed 110 2; listed 130 1] []) in
  calls st' <> [] /\
  exists queue,
    getItemOffers (customer (rejected_with unheard_of)) item_name None
    = Return queue.
Proof.
  split.
  - apply (buyItem_failures no_statusCode (shopper no_search) item_name None
             None None).
    reflexivity.
  - intros st'.
    destruct (buyItem_failures no_statusCode
                (customer (rejected_with unheard_of)) item_name None None None)
      as [_ H].
    apply (H (raise AttemptsFailed_error) st').
    + vm_compute. reflexivity.
    + reflexivity.
Defined.

Lemma getItemState_returns_a_recorded_stage_witness :
  known_stage 2 = true /\
  exists n start finish events ev,
    nth_error [ (purchase_time - 45000, purchase_time + 45000);
                (purchase_time - 300000, purchase_time + 300000) ] n
    = Some (start, finish) /\
    accountV2GetHistory (api late_entry) n start finish = found events /\
    In ev events /\
    History.event ev = buy_v2 /\
    History.item_id ev = 42 /\
    History.stage ev = 2.
Proof.
  apply (getItemState_returns_a_recorded_stage Greenwich epoch buy_v2
           known_stage late_entry 42 (Some purchase_time)).
  vm_compute. reflexivity.
Defined.

Lemma getItemState_failures_witness :
  exists n start finish c,
    nth_error [(purchase_time - 45000, purchase_time + 45000)] n
    = Some (start, finish) /\
    accountV2GetHistory (api (rejects Scalar)) n start finish
    = History.Rejected c /\
    raise TypeError = throw_with_marketId 42 c.
Proof.
  destruct (getItemState_failures Greenwich epoch buy_v2 known_stage
              (rejects Scalar) 42 (Some purchase_time)
              (Throw (raise TypeError))
              [(purchase_time - 45000, purchase_time + 45000)]) as [_ H].
  - vm_compute. reflexivity.
  - destruct (H (raise TypeError) eq_refl) as [H1|[H1|[H1|[[H1 _]|H1]]]];
      try discriminate H1.
    exact H1.
Defined.

Lemma getItemState_does_not_retry_a_failed_request_witness :
  getItemState Greenwich epoch buy_v2 known_stage
    (auditor false (fun _ _ _ => no_history)) 42 (Some purchase_time)
  = (Throw (mkExn (MiddlewareError EErrorType.HistoryFailed None NoData)
                  None (Some 42)),
     [(purchase_time - 45000, purchase_time + 45000)]) /\
  getItemState Greenwich epoch buy_v2 known_stage
    (auditor false fails_at_second) 42 (Some purchase_time)
  = (Throw (mkExn (MiddlewareError EErrorType.HistoryFailed None NoData)
                  None (Some 42)),
     [ (purchase_time - 45000, purchase_time + 45000);
       (purchase_time - 300000, purchase_time + 300000) ]).
Proof.
  split.
  - pose proof (getItemState_does_not_retry_a_failed_request Greenwich epoch
                  buy_v2 known_stage (auditor false (fun _ _ _ => no_history))
                  42 purchase_time) as H.
    cbv zeta in H. destruct H as [H _].
    apply (H {| History.success := false; History.data := None |});
      reflexivity.
  - pose proof (getItemState_does_not_retry_a_failed_request Greenwich epoch
                  buy_v2 known_stage (auditor false fails_at_second)
                  42 purchase_time) as H.
    cbv zeta in H. destruct H as [_ H].
    apply (H [] {| History.success := false; History.data := None |});
      reflexivity.
Defined.

Lemma getItemState_without_a_date_witness :
  getItemState Moscow epoch buy_v2 known_stage (auditor true (ledger [])) 42 None
  = (Throw (mkExn TypeError None (Some 42)), []) /\
  snd (getItemState Moscow epoch buy_v2 known_stage
         (auditor false (ledger [])) 42 None)
  = [(0, epoch 0%nat); (0, epoch 1%nat)].
Proof.
  split.
  - apply (getItemState_without_a_date Moscow epoch buy_v2 known_stage
             (auditor true (ledger [])) 42).
    reflexivity.
  - destruct (getItemState_without_a_date Moscow epoch buy_v2 known_stage
                (auditor false (ledger [])) 42) as [_ H].
    destruct (H eq_refl) as [_ H2]. apply (H2 []); reflexivity.
Defined.

Lemma getItemState_rejected_request_witness :
  getItemState Greenwich epoch buy_v2 known_stage
    (rejects (Object gateway_timeout)) 42 (Some purchase_time)
  = (Throw (mkExn (ForeignError None (Some 504) "Gateway Timeout") None
                  (Some 42)),
     [(purchase_time - 45000, purchase_time + 45000)]) /\
  getItemState Greenwich epoch buy_v2 known_stage
    (rejects Scalar) 42 (Some purchase_time)
  = (Throw (raise TypeError),
     [(purchase_time - 45000, purchase_time + 45000)]).
Proof.
  split.
  - pose proof (getItemState_rejected_request Greenwich epoch buy_v2
                  known_stage (rejects (Object gateway_timeout)) 42
                  purchase_time) as H.
    cbv zeta in H. destruct H as (H & _).
    apply (H gateway_timeout); reflexivity.
  - pose proof (getItemState_rejected_request Greenwich epoch buy_v2
                  known_stage (rejects Scalar) 42 purchase_time) as H.
    cbv zeta in H. destruct H as (_ & _ & _ & H & _).
    apply H. reflexivity.
Defined.

Lemma ping_settlements_witness :
  ping troubled = Return JsNull /\
  ping (unreachable "token_check_or_mobile_authenticator")
  = Throw (Rethrown (ErrorObject
                       (JsString "token_check_or_mobile_authenticator"))) /\
  (Rethrown (ErrorObject (JsString "token_check_or_mobile_authenticator"))
   = HandlerTypeError \/
   exists e,
     Rethrown (ErrorObject (JsString "token_check_or_mobile_authenticator"))
     = Rethrown e /\
     accountPingPong (unreachable "token_check_or_mobile_authenticator")
     = Throw e /\
     message_of_reason e
     = Some (JsString "token_check_or_mobile_authenticator")).
Proof.
  split; [|split].
  - destruct (ping_settlements troubled) as (H & _).
    apply (H failed_ping "token_check_or_mobile_authenticator"%string);
      reflexivity.
  - destruct (ping_settlements
                (unreachable "token_check_or_mobile_authenticator"))
      as (_ & H & _).
    apply (H (JsString "token_check_or_mobile_authenticator")). reflexivity.
  - destruct (ping_settlements
                (unreachable "token_check_or_mobile_authenticator"))
      as (_ & _ & H).
    apply H. reflexivity.
Defined.

Lemma setTradeToken_reports_no_failed_update_witness :
  snd (setTradeToken troubled "new") = ["new"%string] /\
  accountSetToken troubled "new" = Return false /\
  fst (setTradeToken troubled "new") = Return tt.
Proof.
  pose proof (setTradeToken_reports_no_failed_update troubled "new"%string)
    as H.
  cbv zeta in H. destruct H as (_ & Hsent & Hdone & _).
  assert (Hs : snd (setTradeToken troubled "new") = ["new"%string]).
  { apply Hsent. exists (token_is "old"). repeat split. discriminate. }
  split; [exact Hs|]. split; [reflexivity|].
  apply (Hdone false Hs). reflexivity.
Defined.

Lemma getWsAuth_returns_the_first_success_witness :
  getWsAuth troubled 5 0 = Some (JsString "ws-key", 3%nat) /\
  getWsAuth (unreachable "timeout") 5 0 = None.
Proof.
  split.
  - destruct (getWsAuth_returns_the_first_success troubled) as [H _].
    apply (H 2%nat {| WsAuth.success := true;
                      WsAuth.wsAuth := JsString "ws-key" |}).
    + intros [|[|i]] Hi; [exact I|reflexivity|lia].
    + reflexivity.
    + reflexivity.
    + lia.
  - destruct (getWsAuth_returns_the_first_success (unreachable "timeout"))
      as [_ H].
    apply H. intros i. exact I.
Defined.
